(** * Polly-API client: a shallow embedding of [fetch_polls.py] and
    [register_user.py], and the properties of its pagination loop, its
    transport wrappers and its formatter. *)

From Stdlib Require Import ZArith List String Ascii Bool Lia.
From Stdlib Require Import DecimalString.
Import ListNotations.
Open Scope string_scope.
Open Scope Z_scope.

Set Implicit Arguments.
Set Warnings "-register-all".

(** ** Python values

    The values the client handles are the ones [response.json()] can build,
    and the result dictionaries the functions return are built from the same
    material.  A [str] is a sequence of characters, one [ascii] each; a
    [dict] is kept as an association list in insertion order, looked up by
    first match (keys of a real dict are distinct).  A float is kept as a
    dyadic number [m * 2^e]. *)

Inductive value : Type :=
| VNone
| VBool (b : bool)
| VInt (z : Z)
| VFloat (m e : Z)
| VStr (s : string)
| VList (l : list value)
| VDict (kvs : list (string * value)).

(** The exceptions that occur in the two modules. *)
Inductive exn : Type :=
| TypeError
| AttributeError
| KeyError
| ValueError
| ZeroDivisionError.

(** An evaluation either returns a value or raises. *)
Inductive outcome (A : Type) : Type :=
| Returned (a : A)
| Raised (e : exn).
Arguments Returned {A} a.
Arguments Raised {A} e.

(** [bool(v)]: the truth value used by [if v] and [not v]. *)
Definition truthy (v : value) : bool :=
  match v with
  | VNone => false
  | VBool b => b
  | VInt z => negb (z =? 0)
  | VFloat m _ => negb (m =? 0)
  | VStr s => negb (String.length s =? 0)%nat
  | VList l => match l with [] => false | _ => true end
  | VDict kvs => match kvs with [] => false | _ => true end
  end.

(** Lookup in an association list, first match. *)
Fixpoint assoc (k : string) (kvs : list (string * value)) : option value :=
  match kvs with
  | [] => None
  | (k', v) :: rest => if String.eqb k k' then Some v else assoc k rest
  end.

(** The keys of a dict, each once, in insertion order. *)
Fixpoint dict_keys (kvs : list (string * value)) : list string :=
  match kvs with
  | [] => []
  | (k, _) :: rest =>
      k :: filter (fun k' => negb (String.eqb k k')) (dict_keys rest)
  end.

(** [len(v)]: defined on str, list and dict; a [TypeError] elsewhere. *)
Definition py_len (v : value) : outcome Z :=
  match v with
  | VStr s => Returned (Z.of_nat (String.length s))
  | VList l => Returned (Z.of_nat (List.length l))
  | VDict kvs => Returned (Z.of_nat (List.length (dict_keys kvs)))
  | _ => Raised TypeError
  end.

(** The items [for x in v] visits (and [list.extend(v)] appends): the
    elements of a list, the characters of a str, the keys of a dict; a
    [TypeError] elsewhere. *)
Definition py_iter (v : value) : outcome (list value) :=
  match v with
  | VStr s => Returned (map (fun c => VStr (String c EmptyString)) (list_ascii_of_string s))
  | VList l => Returned l
  | VDict kvs => Returned (map VStr (dict_keys kvs))
  | _ => Raised TypeError
  end.

(** [v[key]] with a str key: the entry of a dict, [KeyError] when it is
    missing; a [TypeError] on every other value (a list or a str wants an
    integer index, the rest is not subscriptable). *)
Definition subscript (v : value) (key : string) : outcome value :=
  match v with
  | VDict kvs => match assoc key kvs with
                 | Some x => Returned x
                 | None => Raised KeyError
                 end
  | _ => Raised TypeError
  end.

(** [v.get(key, default)]: only a dict has the method. *)
Definition get_default (v : value) (key : string) (default : value) : outcome value :=
  match v with
  | VDict kvs => match assoc key kvs with
                 | Some x => Returned x
                 | None => Returned default
                 end
  | _ => Raised AttributeError
  end.

(** [v.get(key)] is [v.get(key, None)]. *)
Definition get (v : value) (key : string) : outcome value :=
  get_default v key VNone.

(** [s.replace(old, new)] for a non-empty [old]: every occurrence, left to
    right, without overlap.  [skip] counts the characters of a match that
    are still to be dropped. *)
Fixpoint replace_from (old new s : string) (skip : nat) : string :=
  match s with
  | EmptyString => EmptyString
  | String c s' =>
      match skip with
      | S k => replace_from old new s' k
      | O => if String.prefix old s
             then new ++ replace_from old new s' (String.length old - 1)
             else String c (replace_from old new s' 0)
      end
  end.

Definition replace (s old new : string) : string := replace_from old new s 0.

(** [v.replace(old, new)]: only a str has the method. *)
Definition py_replace (v : value) (old new : string) : outcome string :=
  match v with
  | VStr s => Returned (replace s old new)
  | _ => Raised AttributeError
  end.

(** [str(n)] for an int. *)
Definition str_of_int (z : Z) : string := NilZero.string_of_int (Z.to_int z).

(** [s * n]. *)
Fixpoint str_mul (s : string) (n : nat) : string :=
  match n with
  | O => EmptyString
  | S n' => s ++ str_mul s n'
  end.

(** ** The HTTP client

    [requests.get] and [requests.post] talk to a server whose state the
    client does not see.  A request is answered from a [World] and yields
    the next one; the answer is what the calling code can observe of
    [requests.get(...)] followed by [response.json()].  The outcomes are
    the ones the [except] clauses distinguish; an exception of another
    class raised inside the library is not among them. *)

Inductive http_request : Type :=
| GET (url : string) (skip limit : Z)
    (* params = {"skip": skip, "limit": limit}, Accept: application/json *)
| POST (url : string) (username password : string).
    (* json = {"username": ..., "password": ...}, Content-Type: application/json *)

Inductive http_outcome : Type :=
| ConnectionError
    (* the call raised requests.exceptions.ConnectionError *)
| RequestException (msg : string)
    (* the call raised another RequestException e, with str(e) = msg *)
| Response (status_code : Z) (json : option value).
    (* a response arrived; json = None when response.json() raises
       requests.exceptions.JSONDecodeError *)

Class Requests : Type := {
  World : Type;
  send : World -> http_request -> http_outcome * World
}.

(** The failure dictionaries of the three [except] clauses, shared by both
    wrappers. *)
Definition connection_msg (base_url : string) : string :=
  "❌ Could not connect to the API at " ++ base_url ++ ". Make sure the server is running.".

Definition invalid_json_msg : string := "❌ Invalid JSON response from server".

Definition request_failed_msg (e : string) : string := "❌ Request failed: " ++ e.

Definition failure_msg (error_msg : string) : value :=
  VDict [("success", VBool false); ("error", VStr error_msg)].

(** ** fetch_polls.py

    The progress lines of [fetch_polls] and [fetch_all_polls] go to standard
    output and are left out; the one evaluation inside them that can raise,
    [len(response_data)], is part of the model. *)

Section FetchPolls.
Context {R : Requests}.

Definition fetch_polls (w : World) (skip limit : Z) (base_url : string)
  : outcome value * World :=
  let url := base_url ++ "/polls" in
  match send w (GET url skip limit) with
  | (ConnectionError, w') => (Returned (failure_msg (connection_msg base_url)), w')
  | (RequestException e, w') => (Returned (failure_msg (request_failed_msg e)), w')
  | (Response _ None, w') => (Returned (failure_msg invalid_json_msg), w')
  | (Response status_code (Some response_data), w') =>
      if status_code =? 200 then
        match py_len response_data with
        | Raised e => (Raised e, w')
        | Returned n =>
            (Returned (VDict [("success", VBool true);
                              ("status_code", VInt status_code);
                              ("data", response_data);
                              ("pagination", VDict [("skip", VInt skip);
                                                    ("limit", VInt limit);
                                                    ("returned_count", VInt n)])]),
             w')
        end
      else
        (Returned (VDict [("success", VBool false);
                          ("status_code", VInt status_code);
                          ("error", response_data)]),
         w')
  end.

(** The local variables of the loop of [fetch_all_polls]. *)
Record loop_state : Type := {
  all_polls : list value;
  skip : Z;
  total_fetched : Z
}.

(** How one pass through the body of [while True] ends. *)
Inductive step_result : Type :=
| Continue (w : World) (st : loop_state)   (* back to the top of the loop *)
| Break (w : World) (st : loop_state)      (* break *)
| Return (w : World) (result : value)      (* return result *)
| Raise (w : World) (e : exn).             (* an exception leaves the function *)

Variable base_url : string.
Variable page_size : Z.
Variable max_polls : option Z.

(** "Calculate limit for this request"; [None] is the [break]. *)
Definition current_limit (st : loop_state) : option Z :=
  match max_polls with
  | Some m =>
      let remaining := m - total_fetched st in
      if remaining <=? 0 then None else Some (Z.min page_size remaining)
  | None => Some page_size
  end.

Definition loop_body (w : World) (st : loop_state) : step_result :=
  match current_limit st with
  | None => Break w st
  | Some limit =>
      match fetch_polls w (skip st) limit base_url with
      | (Raised e, w') => Raise w' e
      | (Returned result, w') =>
          match get result "success" with
          | Raised e => Raise w' e
          | Returned ok =>
              if negb (truthy ok) then Return w' result else
              match subscript result "data" with
              | Raised e => Raise w' e
              | Returned current_polls =>
                  if negb (truthy current_polls) then Break w' st else
                  match py_iter current_polls, py_len current_polls with
                  | Raised e, _ | _, Raised e => Raise w' e
                  | Returned items, Returned n =>
                      let st' := {| all_polls := all_polls st ++ items;
                                    total_fetched := total_fetched st + n;
                                    skip := skip st + n |} in
                      if n <? limit then Break w' st' else Continue w' st'
                  end
              end
          end
      end
  end.

(** The statement after the loop.  [//] and [%] are floor division and
    its remainder, as [Z.div] and [Z.modulo]; they raise on a zero
    divisor. *)
Definition finish (st : loop_state) : outcome value :=
  if page_size =? 0 then Raised ZeroDivisionError else
  Returned (VDict [("success", VBool true);
                   ("data", VList (all_polls st));
                   ("total_count", VInt (total_fetched st));
                   ("pagination_info",
                     VDict [("page_size", VInt page_size);
                            ("total_requests",
                              VInt (skip st / page_size
                                    + (if skip st mod page_size >? 0 then 1 else 0)))])]).

(** [while True] has no bound of its own: the loop is run with fuel, and
    [None] means the fuel ran out before the loop was left. *)
Fixpoint fetch_all_loop (fuel : nat) (w : World) (st : loop_state)
  : option (outcome value * World) :=
  match fuel with
  | O => None
  | S fuel' =>
      match loop_body w st with
      | Continue w' st' => fetch_all_loop fuel' w' st'
      | Break w' st' => Some (finish st', w')
      | Return w' result => Some (Returned result, w')
      | Raise w' e => Some (Raised e, w')
      end
  end.

Definition initial : loop_state :=
  {| all_polls := []; skip := 0; total_fetched := 0 |}.

Definition fetch_all_polls (fuel : nat) (w : World) : option (outcome value * World) :=
  fetch_all_loop fuel w initial.

(** The states the loop passes through: [visits w st w' st'] when a run
    that is at the top of the loop in [(w, st)] is there again, some
    passes later, in [(w', st')]. *)
Inductive visits (w : World) (st : loop_state) : World -> loop_state -> Prop :=
| visits_here : visits w st w st
| visits_next w1 st1 w2 st2 :
    visits w st w1 st1 -> loop_body w1 st1 = Continue w2 st2 ->
    visits w st w2 st2.

End FetchPolls.

(** ** Standard output

    [print] appends a line; what was printed before an exception stays
    printed. *)

Definition io (A : Type) : Type := (list string * outcome A)%type.

Definition ret {A} (a : A) : io A := ([], Returned a).

Definition bind {A B} (m : io A) (k : A -> io B) : io B :=
  match m with
  | (out, Returned a) => let (out', r) := k a in ((out ++ out')%list, r)
  | (out, Raised e) => (out, Raised e)
  end.

Definition print (line : string) : io unit := ([line], Returned tt).

Definition eval {A} (o : outcome A) : io A := ([], o).

Declare Scope io_scope.
Delimit Scope io_scope with io.
Notation "x <- m ;; k" := (bind m (fun x => k))
  (at level 61, m at next level, right associativity) : io_scope.
Notation "m ;; k" := (bind m (fun _ => k))
  (at level 61, right associativity) : io_scope.

(** [for x in xs: body(x)]. *)
Fixpoint for_each {A} (body : A -> io unit) (xs : list A) : io unit :=
  match xs with
  | [] => ret tt
  | x :: rest => (body x ;; for_each body rest)%io
  end.

(** What the formatter needs of Python itself: [repr], and the two
    [datetime] calls.  [fromisoformat] answers [None] where Python raises
    [ValueError]. *)
Class Builtins : Type := {
  py_repr : value -> string;
  datetime : Type;
  fromisoformat : string -> option datetime;
  strftime : datetime -> string -> string
}.

(** [str(v)], as an f-string applies it: a str is itself, everything else
    is its [repr]. *)
Definition py_str {B : Builtins} (v : value) : string :=
  match v with
  | VStr s => s
  | _ => py_repr v
  end.

Definition nl : string := String "010" EmptyString.

Section DisplayPolls.
Context {B : Builtins}.

(** The [try] / [except (ValueError, KeyError)] that computes
    [formatted_date]. *)
Definition formatted_date (poll : value) : outcome value :=
  let parsed :=
    match subscript poll "created_at" with
    | Raised e => Raised e
    | Returned raw =>
        match py_replace raw "Z" "+00:00" with
        | Raised e => Raised e
        | Returned iso =>
            match fromisoformat iso with
            | None => Raised ValueError
            | Some created_at => Returned (VStr (strftime created_at "%Y-%m-%d %H:%M:%S"))
            end
        end
    end in
  match parsed with
  | Raised ValueError | Raised KeyError => get_default poll "created_at" (VStr "Unknown")
  | _ => parsed
  end.

(** The body of [for i, option in enumerate(options, 1)], from [i] on. *)
Fixpoint display_options (i : Z) (options : list value) : io unit :=
  match options with
  | [] => ret tt
  | option :: rest =>
      (text <- eval (get_default option "text" (VStr "N/A")) ;;
       id <- eval (get_default option "id" (VStr "N/A")) ;;
       print ("   " ++ str_of_int i ++ ". " ++ py_str text ++ " (ID: " ++ py_str id ++ ")") ;;
       display_options (i + 1) rest)%io
  end.

(** "Display options": the [if options:] statement. *)
Definition display_options_of (options : value) : io unit :=
  if truthy options then
    (print "📝 Options:" ;;
     items <- eval (py_iter options) ;;
     display_options 1 items)%io
  else
    print "📝 Options: None".

(** The body of [for poll in polls_data]. *)
Definition display_poll (poll : value) : io unit :=
  (formatted_date <- eval (formatted_date poll) ;;
   id <- eval (get_default poll "id" (VStr "N/A")) ;;
   print (nl ++ "🗳️  Poll ID: " ++ py_str id) ;;
   question <- eval (get_default poll "question" (VStr "N/A")) ;;
   print ("❓ Question: " ++ py_str question) ;;
   owner_id <- eval (get_default poll "owner_id" (VStr "N/A")) ;;
   print ("👤 Owner ID: " ++ py_str owner_id) ;;
   print ("📅 Created: " ++ py_str formatted_date) ;;
   options <- eval (get_default poll "options" (VList [])) ;;
   display_options_of options ;;
   print (str_mul "-" 40))%io.

Definition display_polls (polls_data : list value) : io unit :=
  match polls_data with
  | [] => print "📭 No polls to display"
  | _ =>
      (print (nl ++ "📊 Displaying " ++ str_of_int (Z.of_nat (List.length polls_data)) ++ " polls:") ;;
       print (str_mul "=" 60) ;;
       for_each display_poll polls_data)%io
  end.

End DisplayPolls.

(** ** register_user.py

    Here the printed lines are part of the model: the branches for status
    400 and for the other statuses differ in nothing else. *)

Section RegisterUser.
Context {R : Requests} {B : Builtins}.

Definition register_user (w : World) (username password base_url : string)
  : io value * World :=
  let url := base_url ++ "/register" in
  match send w (POST url username password) with
  | (ConnectionError, w') =>
      let error_msg := connection_msg base_url in
      ((print error_msg ;; ret (failure_msg error_msg))%io, w')
  | (RequestException e, w') =>
      let error_msg := request_failed_msg e in
      ((print error_msg ;; ret (failure_msg error_msg))%io, w')
  | (Response _ None, w') =>
      let error_msg := invalid_json_msg in
      ((print error_msg ;; ret (failure_msg error_msg))%io, w')
  | (Response status_code (Some response_data), w') =>
      if status_code =? 200 then
        ((print ("✅ User '" ++ username ++ "' registered successfully!") ;;
          id <- eval (get response_data "id") ;;
          print ("User ID: " ++ py_str id) ;;
          ret (VDict [("success", VBool true);
                      ("status_code", VInt status_code);
                      ("data", response_data)]))%io, w')
      else if status_code =? 400 then
        ((print ("❌ Registration failed: " ++ py_str response_data) ;;
          ret (VDict [("success", VBool false);
                      ("status_code", VInt status_code);
                      ("error", response_data)]))%io, w')
      else
        ((print ("⚠️ Unexpected status code: " ++ str_of_int status_code) ;;
          ret (VDict [("success", VBool false);
                      ("status_code", VInt status_code);
                      ("error", response_data)]))%io, w')
  end.

End RegisterUser.

(** ** Simulated servers and built-ins

    A server that answers its [n]-th request by [answer n]; its state is
    the number of requests it has answered. *)
Definition server (answer : nat -> http_request -> http_outcome) : Requests :=
  {| World := nat; send := fun n request => (answer n request, S n) |}.

(** [records[skip : skip + limit]] for non-negative [skip] and [limit]. *)
Definition page (records : list value) (skip limit : Z) : list value :=
  firstn (Z.to_nat limit) (skipn (Z.to_nat skip) records).

(** A data source that holds [records]: every GET is answered with status
    200 and the requested window of the records; it has no other route. *)
Definition poll_source (records : list value) : Requests :=
  server (fun _ request =>
            match request with
            | GET _ skip limit => Response 200 (Some (VList (page records skip limit)))
            | POST _ _ _ => Response 404 (Some (VDict [("detail", VStr "Not Found")]))
            end).

(** Built-ins to run the formatter on examples: [repr] of the scalars, and
    a parser that accepts the shape [YYYY-MM-DDTHH:MM:SS+00:00] only and
    prints date and time with a space between them. *)
Definition sample_builtins : Builtins :=
  {| py_repr := fun v => match v with
                         | VNone => "None"
                         | VBool true => "True"
                         | VBool false => "False"
                         | VInt z => str_of_int z
                         | VStr s => "'" ++ s ++ "'"
                         | VFloat _ _ => "<float>"
                         | VList _ => "[...]"
                         | VDict _ => "{...}"
                         end;
     datetime := string;
     fromisoformat := fun s =>
       if ((String.length s =? 25)%nat && String.eqb (substring 10 1 s) "T"
           && String.eqb (substring 19 6 s) "+00:00")%bool
       then Some (substring 0 10 s ++ " " ++ substring 11 8 s) else None;
     strftime := fun d _ => d |}.

(** ** Reading results *)

(** [v[k1][k2]...]. *)
Fixpoint path (v : value) (keys : list string) : outcome value :=
  match keys with
  | [] => Returned v
  | k :: rest => match subscript v k with
                 | Returned x => path x rest
                 | Raised e => Raised e
                 end
  end.

(** [result.get("success")] is true. *)
Definition succeeded (result : value) : bool :=
  match get result "success" with
  | Returned ok => truthy ok
  | Raised _ => false
  end.

Definition is_dict (v : value) : bool :=
  match v with VDict _ => true | _ => false end.

(** The three kinds of fault of section 7 of the specification, as the
    client observes them. *)
Inductive fault : http_outcome -> Prop :=
| ConnectionFault : fault ConnectionError
| DecodeFault status : fault (Response status None)
| ApplicationFault status body :
    ~ (200 <= status <= 299) -> fault (Response status (Some body)).

(** The failure value that reports a fault: a message and no status code
    for a connection or decode fault, the status code and the body as
    received for an application fault. *)
Definition fault_report (base_url : string) (o : http_outcome) : value :=
  match o with
  | ConnectionError => VDict [("success", VBool false); ("error", VStr (connection_msg base_url))]
  | RequestException e => VDict [("success", VBool false); ("error", VStr (request_failed_msg e))]
  | Response _ None => VDict [("success", VBool false); ("error", VStr invalid_json_msg)]
  | Response status (Some body) =>
      VDict [("success", VBool false); ("status_code", VInt status); ("error", body)]
  end.

(** [ceil(a / b)] for a positive [b]. *)
Definition ceil_div (a b : Z) : Z := - ((- a) / b).

(** The state after a page of [items] was appended: the three updates at
    the end of the loop body. *)
Definition advance (st : loop_state) (items : list value) : loop_state :=
  {| all_polls := all_polls st ++ items;
     total_fetched := total_fetched st + Z.of_nat (List.length items);
     skip := skip st + Z.of_nat (List.length items) |}.

(** The two counters of the loop agree with each other and with the
    accumulated list. *)
Definition counters_agree (st : loop_state) : Prop :=
  skip st = total_fetched st /\
  total_fetched st = Z.of_nat (List.length (all_polls st)).

(** The state of the loop when the first [k] of [records] have been
    fetched. *)
Definition fetched (records : list value) (k : nat) : loop_state :=
  {| all_polls := firstn k records;
     skip := Z.of_nat k;
     total_fetched := Z.of_nat k |}.

(** A server that sends the given pages, one per request, each with
    status 200, and answers every later request with [o]. *)
Definition scripted (pages : list (list value)) (o : http_outcome) : Requests :=
  server (fun n _ => match nth_error pages n with
                     | Some items => Response 200 (Some (VList items))
                     | None => o
                     end).

(** Whether a computation ends without an exception. *)
Definition returns {A} (m : io A) : bool :=
  match snd m with Returned _ => true | Raised _ => false end.

(** The entry of a dict, or the str [default] when the key is missing. *)
Definition field (kvs : list (string * value)) (key default : string) : value :=
  match assoc key kvs with Some v => v | None => VStr default end.

(** The records of the schema, as far as the formatter depends on it: a
    dict whose [created_at], when present, is a str, and whose [options],
    when present, is a list of dicts or a value that counts as false. *)
Definition renderable (poll : value) : bool :=
  match poll with
  | VDict kvs =>
      match assoc "created_at" kvs with
      | None | Some (VStr _) => true
      | Some _ => false
      end
      &&
      match assoc "options" kvs with
      | None => true
      | Some (VList options) => forallb is_dict options
      | Some options => negb (truthy options)
      end
  | _ => false
  end.

(** ** Servers, by how they treat the limit of a request *)

(** A server that never sends more items than the limit it was given
    (and none for a limit below 0). *)
Definition honours_limit (R : Requests) : Prop :=
  forall (w w' : World) url skip limit body n,
    send w (GET url skip limit) = (Response 200 (Some body), w') ->
    py_len body = Returned n ->
    n <= Z.max 0 limit.

(** A server that answers every request with a full page: a non-empty
    list of at least [limit] items. *)
Definition always_full (R : Requests) : Prop :=
  forall (w : World) url skip limit,
    exists items w',
      send w (GET url skip limit) = (Response 200 (Some (VList items)), w') /\
      items <> [] /\
      limit <= Z.of_nat (List.length items).

(** A source without an end: it sends [max(limit, 1)] empty records,
    whatever the offset. *)
Definition endless_source : Requests :=
  server (fun _ request =>
            match request with
            | GET _ _ limit =>
                Response 200 (Some (VList (repeat (VDict []) (Z.to_nat (Z.max limit 1)))))
            | POST _ _ _ => Response 404 (Some (VDict [("detail", VStr "Not Found")]))
            end).

(** ** fetch_polls.py with its progress lines

    The same two functions with what they print.  Dropping the printed
    lines gives back [fetch_polls] and [fetch_all_polls]. *)

Section FetchPollsPrinted.
Context {R : Requests}.

Definition fetch_polls_printed (w : World) (skip limit : Z) (base_url : string)
  : io value * World :=
  let url := base_url ++ "/polls" in
  match send w (GET url skip limit) with
  | (ConnectionError, w') =>
      let error_msg := connection_msg base_url in
      ((print error_msg ;; ret (failure_msg error_msg))%io, w')
  | (RequestException e, w') =>
      let error_msg := request_failed_msg e in
      ((print error_msg ;; ret (failure_msg error_msg))%io, w')
  | (Response _ None, w') =>
      let error_msg := invalid_json_msg in
      ((print error_msg ;; ret (failure_msg error_msg))%io, w')
  | (Response status_code (Some response_data), w') =>
      if status_code =? 200 then
        ((n <- eval (py_len response_data) ;;
          print ("✅ Successfully fetched " ++ str_of_int n ++ " polls") ;;
          print ("📄 Pagination: skip=" ++ str_of_int skip ++ ", limit=" ++ str_of_int limit) ;;
          returned_count <- eval (py_len response_data) ;;
          ret (VDict [("success", VBool true);
                      ("status_code", VInt status_code);
                      ("data", response_data);
                      ("pagination", VDict [("skip", VInt skip);
                                            ("limit", VInt limit);
                                            ("returned_count", VInt returned_count)])]))%io,
         w')
      else
        ((print ("❌ Request failed with status code: " ++ str_of_int status_code) ;;
          ret (VDict [("success", VBool false);
                      ("status_code", VInt status_code);
                      ("error", response_data)]))%io,
         w')
  end.

Variable base_url : string.
Variable page_size : Z.
Variable max_polls : option Z.

(** One pass through the loop body, with the lines it prints. *)
Definition loop_body_printed (w : World) (st : loop_state) : list string * step_result :=
  match current_limit page_size max_polls st with
  | None => ([], Break w st)
  | Some limit =>
      match fetch_polls_printed w (skip st) limit base_url with
      | ((out, Raised e), w') => (out, Raise w' e)
      | ((out, Returned result), w') =>
          match get result "success" with
          | Raised e => (out, Raise w' e)
          | Returned ok =>
              if negb (truthy ok) then (out, Return w' result) else
              match subscript result "data" with
              | Raised e => (out, Raise w' e)
              | Returned current_polls =>
                  if negb (truthy current_polls) then (out, Break w' st) else
                  match py_iter current_polls, py_len current_polls with
                  | Raised e, _ | _, Raised e => (out, Raise w' e)
                  | Returned items, Returned n =>
                      let st' := {| all_polls := all_polls st ++ items;
                                    total_fetched := total_fetched st + n;
                                    skip := skip st + n |} in
                      let line := "📊 Fetched " ++ str_of_int n
                                  ++ " polls, total so far: "
                                  ++ str_of_int (total_fetched st') in
                      if n <? limit then ((out ++ [line])%list, Break w' st')
                      else ((out ++ [line])%list, Continue w' st')
                  end
              end
          end
      end
  end.

(** The statements after the loop. *)
Definition finish_printed (st : loop_state) : io value :=
  (print ("✅ Completed! Total polls fetched: " ++ str_of_int (total_fetched st)) ;;
   eval (finish page_size st))%io.

(** [out] was printed before [m] ran. *)
Definition after {A} (out : list string) (m : io A) : io A :=
  ((out ++ fst m)%list, snd m).

Fixpoint fetch_all_loop_printed (fuel : nat) (w : World) (st : loop_state)
  : option (io value * World) :=
  match fuel with
  | O => None
  | S fuel' =>
      match loop_body_printed w st with
      | (out, Continue w' st') =>
          match fetch_all_loop_printed fuel' w' st' with
          | Some (m, w'') => Some (after out m, w'')
          | None => None
          end
      | (out, Break w' st') => Some (after out (finish_printed st'), w')
      | (out, Return w' result) => Some ((out, Returned result), w')
      | (out, Raise w' e) => Some ((out, Raised e), w')
      end
  end.

Definition fetch_all_polls_printed (fuel : nat) (w : World) : option (io value * World) :=
  match fetch_all_loop_printed fuel w initial with
  | Some (m, w') =>
      Some (after ["🔄 Starting to fetch all polls (page size: "
                   ++ str_of_int page_size ++ ")"] m, w')
  | None => None
  end.

End FetchPollsPrinted.

(** The result and the world of a printed run, without the lines. *)
Definition silent {A W} (x : io A * W) : outcome A * W := (snd (fst x), snd x).

(** ** The demonstration of fetch_polls.py

    [main] calls the three functions one after the other against the
    default base URL.  A program threads the server through its calls; an
    exception ends it, with the lines printed so far. *)

Definition prog {R : Requests} (A : Type) : Type := World -> option (io A * World).

Definition say {R : Requests} {A} (m : io A) : prog A := fun w => Some (m, w).

Definition and_then {R : Requests} {A C} (m : prog A) (k : A -> prog C) : prog C :=
  fun w =>
    match m w with
    | None => None
    | Some ((out, Raised e), w') => Some ((out, Raised e), w')
    | Some ((out, Returned a), w') =>
        match k a w' with
        | None => None
        | Some (m', w'') => Some (after out m', w'')
        end
    end.

Declare Scope prog_scope.
Delimit Scope prog_scope with prog.
Notation "x <- m ;; k" := (and_then m (fun x => k))
  (at level 61, m at next level, right associativity) : prog_scope.
Notation "m ;; k" := (and_then m (fun _ => k))
  (at level 61, right associativity) : prog_scope.

(** [v[:n]]: a list or a str can be sliced.  (A dict cannot; which
    exception it raises depends on the version of Python, and [main] never
    slices one.) *)
Definition slice_to (v : value) (n : nat) : outcome value :=
  match v with
  | VList l => Returned (VList (firstn n l))
  | VStr s => Returned (VStr (substring 0 n s))
  | _ => Raised TypeError
  end.

Section Main.
Context {R : Requests} {B : Builtins}.

(** [display_polls] applied to whatever value it is given: the test
    [if not polls_data], [len] and the [for] loop work on the value as it
    is. *)
Definition display_polls_of (polls_data : value) : io unit :=
  if negb (truthy polls_data) then
    print "📭 No polls to display"
  else
    (n <- eval (py_len polls_data) ;;
     print (nl ++ "📊 Displaying " ++ str_of_int n ++ " polls:") ;;
     print (str_mul "=" 60) ;;
     polls <- eval (py_iter polls_data) ;;
     for_each display_poll polls)%io.

(** The [if result.get("success")] of the first two examples. *)
Definition show_result (result : value) : io unit :=
  (ok <- eval (get result "success") ;;
   if truthy ok then
     data <- eval (subscript result "data") ;;
     display_polls_of data
   else
     error <- eval (get result "error") ;;
     print ("Error: " ++ py_str error))%io.

(** The [if result3.get("success")] of the third example. *)
Definition show_summary (result3 : value) : io unit :=
  (ok <- eval (get result3 "success") ;;
   if truthy ok then
     total_count <- eval (subscript result3 "total_count") ;;
     print (nl ++ "📊 Summary: Fetched " ++ py_str total_count ++ " polls total") ;;
     total_requests <- eval (path result3 ["pagination_info"; "total_requests"]) ;;
     print ("🔄 Made " ++ py_str total_requests ++ " API requests") ;;
     data <- eval (subscript result3 "data") ;;
     if truthy data then
       print (nl ++ "🔍 Preview of first few polls:") ;;
       data <- eval (subscript result3 "data") ;;
       preview <- eval (slice_to data 3) ;;
       display_polls_of preview
     else ret tt
   else
     error <- eval (get result3 "error") ;;
     print ("Error: " ++ py_str error))%io.

Definition default_base_url : string := "http://localhost:8000".

Definition main (fuel : nat) : prog unit :=
  (say (print ("=== Polly-API Poll Fetcher ===" ++ nl)) ;;
   say (print "Example 1: Fetch first 5 polls") ;;
   result1 <- (fun w => Some (fetch_polls_printed w 0 5 default_base_url)) ;;
   say (show_result result1) ;;
   say (print (nl ++ str_mul "=" 60 ++ nl)) ;;
   say (print "Example 2: Fetch next 5 polls (skip=5)") ;;
   result2 <- (fun w => Some (fetch_polls_printed w 5 5 default_base_url)) ;;
   say (show_result result2) ;;
   say (print (nl ++ str_mul "=" 60 ++ nl)) ;;
   say (print "Example 3: Fetch all polls (max 20)") ;;
   result3 <- fetch_all_polls_printed default_base_url 10 (Some 20) fuel ;;
   say (show_summary result3))%prog.

End Main.

(** A server within the schema of the API: every body it sends with
    status 200 is a list of records the formatter can render. *)
Definition serves_polls (R : Requests) : Prop :=
  forall (w w' : World) request body,
    send w request = (Response 200 (Some body), w') ->
    exists polls, body = VList polls /\ forallb renderable polls = true.

(** A program that ends without an exception when started in [w]. *)
Definition completes {R : Requests} {A} (m : prog A) (w : World) : Prop :=
  exists out a w', m w = Some ((out, Returned a), w').

(** ** The demonstration of register_user.py *)

(** [json.dumps(v, indent=2)], which the demonstration prints its results
    with. *)
Class Json : Type := {
  json_dumps : value -> string
}.

Section RegisterUserMain.
Context {R : Requests} {B : Builtins} {J : Json}.

(** The [main] of register_user.py. *)
Definition register_user_main : prog unit :=
  (say (print ("=== Polly-API User Registration ===" ++ nl)) ;;
   say (print "Example 1: Registering a new user") ;;
   result1 <- (fun w => Some (register_user w "john_doe" "secure_password123"
                                default_base_url)) ;;
   say (print ("Result: " ++ json_dumps result1 ++ nl)) ;;
   say (print "Example 2: Trying to register the same user again") ;;
   result2 <- (fun w => Some (register_user w "john_doe" "secure_password123"
                                default_base_url)) ;;
   say (print ("Result: " ++ json_dumps result2 ++ nl)) ;;
   say (print "Example 3: Registering another user") ;;
   result3 <- (fun w => Some (register_user w "jane_smith" "another_password456"
                                default_base_url)) ;;
   say (print ("Result: " ++ json_dumps result3)))%prog.

End RegisterUserMain.

(** A server that keeps the requests it has seen, oldest first, and
    answers from them. *)
Definition recording (answer : list http_request -> http_request -> http_outcome)
  : Requests :=
  {| World := list http_request;
     send := fun seen request => (answer seen request, (seen ++ [request])%list) |}.

(** A stand-in for [json.dumps] on examples. *)
Definition sample_json : Json := {| json_dumps := fun v => @py_str sample_builtins v |}.

(** ** Properties of the transport wrappers *)

Unset Implicit Arguments.

(** The built-ins of the model on the values of the repository's own
    examples. *)
Example replace_utc_suffix :
  replace "2024-01-15T10:30:00Z" "Z" "+00:00" = "2024-01-15T10:30:00+00:00".
Proof. reflexivity. Qed.

Example str_of_int_samples : str_of_int 101 = "101" /\ str_of_int (-4) = "-4".
Proof. split; reflexivity. Qed.

Example len_of_scalar_raises : py_len (VInt 3) = Raised TypeError.
Proof. reflexivity. Qed.

Section Wrappers.
Context {R : Requests} {B : Builtins}.

Lemma fault_report_fields base_url o :
  fault o ->
  get (fault_report base_url o) "success" = Returned (VBool false) /\
  match o with
  | Response status (Some body) =>
      subscript (fault_report base_url o) "status_code" = Returned (VInt status) /\
      subscript (fault_report base_url o) "error" = Returned body
  | _ =>
      subscript (fault_report base_url o) "status_code" = Raised KeyError /\
      exists msg, subscript (fault_report base_url o) "error" = Returned (VStr msg) /\ msg <> ""
  end.
Proof.
  intros [ | status | status body Hs]; cbn; split; try reflexivity; split;
    try reflexivity; eexists; (split; [reflexivity | discriminate]).
Qed.

Lemma not_2xx_not_200 status : ~ (200 <= status <= 299) -> (status =? 200) = false.
Proof. intros H. apply Z.eqb_neq. lia. Qed.

(** C9. Each of the three kinds of fault (no connection, a body that is
    not JSON, a response outside 2xx) comes back from [fetch_polls] and from
    [register_user] as a returned failure value, never as a raised
    exception: [success] is false; a connection or decode fault carries a
    non-empty message and has no [status_code] field, an application fault
    carries the status code and the body of the server as received. *)
Theorem faults_are_returned (w w' : World) (o : http_outcome) (base_url : string) :
  fault o ->
  (forall skip limit,
      send w (GET (base_url ++ "/polls") skip limit) = (o, w') ->
      fetch_polls w skip limit base_url = (Returned (fault_report base_url o), w')) /\
  (forall username password,
      send w (POST (base_url ++ "/register") username password) = (o, w') ->
      exists out,
        register_user w username password base_url
        = ((out, Returned (fault_report base_url o)), w')) /\
  get (fault_report base_url o) "success" = Returned (VBool false) /\
  match o with
  | Response status (Some body) =>
      subscript (fault_report base_url o) "status_code" = Returned (VInt status) /\
      subscript (fault_report base_url o) "error" = Returned body
  | _ =>
      subscript (fault_report base_url o) "status_code" = Raised KeyError /\
      exists msg, subscript (fault_report base_url o) "error" = Returned (VStr msg) /\ msg <> ""
  end.
Proof.
  intros Hf. split; [ | split; [ | exact (fault_report_fields base_url o Hf) ] ].
  - intros skip limit Hsend. unfold fetch_polls. rewrite Hsend.
    destruct Hf as [ | status | status body Hs]; try reflexivity.
    rewrite (not_2xx_not_200 _ Hs). reflexivity.
  - intros username password Hsend. unfold register_user. rewrite Hsend.
    destruct Hf as [ | status | status body Hs]; try (eexists; reflexivity).
    rewrite (not_2xx_not_200 _ Hs).
    destruct (status =? 400); eexists; reflexivity.
Qed.

(** C6, as the code has it. [register_user] returns a success value exactly
    when a response with status 200 arrives whose body is a JSON object, and
    then [data] is that body; for every other status, 400 included, it
    returns a failure value with the status code and the body, and the two
    branches differ in the printed line only. *)
Theorem register_user_by_status (w w' : World) (username password base_url : string)
    (o : http_outcome) :
  send w (POST (base_url ++ "/register") username password) = (o, w') ->
  ((exists out r,
       register_user w username password base_url = ((out, Returned r), w') /\
       succeeded r = true)
   <-> exists kvs, o = Response 200 (Some (VDict kvs))) /\
  (forall kvs, o = Response 200 (Some (VDict kvs)) ->
     exists out,
       register_user w username password base_url
       = ((out, Returned (VDict [("success", VBool true);
                                 ("status_code", VInt 200);
                                 ("data", VDict kvs)])), w')) /\
  (forall status body, o = Response status (Some body) -> status <> 200 ->
     register_user w username password base_url
     = (([if status =? 400
          then "❌ Registration failed: " ++ py_str body
          else "⚠️ Unexpected status code: " ++ str_of_int status],
         Returned (VDict [("success", VBool false);
                          ("status_code", VInt status);
                          ("error", body)])), w')).
Proof.
  intros Hsend. unfold register_user. rewrite Hsend. split; [ | split ].
  - split.
    + intros (out & r & Hrun & Hok).
      destruct o as [ | e | status [body | ] ]; cbn in Hrun;
        try (injection Hrun as _ <-; discriminate Hok).
      destruct (status =? 200) eqn:E200.
      * apply Z.eqb_eq in E200. subst status.
        destruct body; cbn in Hrun; try discriminate Hrun.
        eexists; reflexivity.
      * destruct (status =? 400); cbn in Hrun; injection Hrun as _ <-; discriminate Hok.
    + intros (kvs & ->). cbn. destruct (assoc "id" kvs); do 2 eexists; split; reflexivity.
  - intros kvs ->. cbn. destruct (assoc "id" kvs); eexists; reflexivity.
  - intros status body -> Hne. apply Z.eqb_neq in Hne. rewrite Hne.
    destruct (status =? 400); reflexivity.
Qed.

(** C4, as the code has it. A successful result of [fetch_polls] carries
    the body of the response as [data] and its length as
    [pagination.returned_count], next to the [skip] and [limit] of the
    call; the count is the number of items the server sent, whatever the
    limit was. *)
Theorem fetch_polls_returned_count (w w' : World) (skip limit : Z) (base_url : string)
    (r : value) :
  fetch_polls w skip limit base_url = (Returned r, w') ->
  succeeded r = true ->
  exists data n,
    send w (GET (base_url ++ "/polls") skip limit) = (Response 200 (Some data), w') /\
    subscript r "data" = Returned data /\
    py_len data = Returned n /\
    path r ["pagination"; "returned_count"] = Returned (VInt n) /\
    path r ["pagination"; "skip"] = Returned (VInt skip) /\
    path r ["pagination"; "limit"] = Returned (VInt limit) /\
    (n <= limit <-> exists m, py_len data = Returned m /\ m <= limit).
Proof.
  unfold fetch_polls. intros Hrun Hok.
  destruct (send w (GET (base_url ++ "/polls") skip limit)) as [o w1].
  destruct o as [ | e | status [body | ] ];
    try (injection Hrun as <- _; discriminate Hok).
  destruct (status =? 200) eqn:E200.
  - apply Z.eqb_eq in E200. subst status.
    destruct (py_len body) as [n | e] eqn:Hlen; [ | discriminate Hrun ].
    injection Hrun as <- <-. exists body, n. cbn.
    repeat split; trivial.
    + intros Hle. exists n. split; [ exact Hlen | exact Hle ].
    + intros (m & Hm & Hle). rewrite Hlen in Hm. injection Hm as <-. exact Hle.
  - injection Hrun as <- _. discriminate Hok.
Qed.

End Wrappers.

(** The witness of C9: a server that is down for maintenance. *)
Lemma faults_are_returned_witness :
  fault (Response 503 (Some (VStr "maintenance"))) /\
  @fetch_polls (server (fun _ _ => Response 503 (Some (VStr "maintenance"))))
    0%nat 0 10 "http://localhost:8000"
  = (Returned (VDict [("success", VBool false);
                      ("status_code", VInt 503);
                      ("error", VStr "maintenance")]), 1%nat).
Proof.
  assert (Hf : fault (Response 503 (Some (VStr "maintenance")))).
  { apply ApplicationFault. lia. }
  split; [ exact Hf | ].
  apply (proj1 (@faults_are_returned
                  (server (fun _ _ => Response 503 (Some (VStr "maintenance"))))
                  sample_builtins 0%nat 1%nat _ "http://localhost:8000" Hf)).
  reflexivity.
Defined.

(** The claim C6 fails where the body of a 200 response is not an object:
    the line that prints the user id calls [get] on it. *)
Lemma register_user_200_needs_object :
  @register_user (server (fun _ _ => Response 200 (Some (VList []))))
    sample_builtins 0%nat "john_doe" "secure_password123" "http://localhost:8000"
  = ((["✅ User 'john_doe' registered successfully!"], Raised AttributeError), 1%nat).
Proof. reflexivity. Qed.

(** The witness of C6: a duplicate registration, answered with 400. *)
Lemma register_user_by_status_witness :
  @register_user (server (fun _ _ => Response 400 (Some (VStr "Username already registered"))))
    sample_builtins 0%nat "john_doe" "secure_password123" "http://localhost:8000"
  = ((["❌ Registration failed: Username already registered"],
      Returned (VDict [("success", VBool false);
                       ("status_code", VInt 400);
                       ("error", VStr "Username already registered")])), 1%nat).
Proof.
  apply (proj2 (proj2 (@register_user_by_status
                  (server (fun _ _ => Response 400 (Some (VStr "Username already registered"))))
                  sample_builtins 0%nat 1%nat "john_doe" "secure_password123"
                  "http://localhost:8000" _ eq_refl)) 400 (VStr "Username already registered")
               eq_refl).
  discriminate.
Defined.

(** The claim C4 fails in its second half: nothing in [fetch_polls] holds
    the server to the limit.  Asked for one poll, this server sends two. *)
Lemma fetch_polls_count_over_limit :
  exists r w',
    @fetch_polls (server (fun _ _ => Response 200 (Some (VList [VDict [("id", VInt 1)];
                                                                 VDict [("id", VInt 2)]]))))
      0%nat 0 1 "http://localhost:8000" = (Returned r, w') /\
    succeeded r = true /\
    path r ["pagination"; "returned_count"] = Returned (VInt 2) /\
    path r ["pagination"; "limit"] = Returned (VInt 1) /\
    ~ 2 <= 1.
Proof. do 2 eexists. repeat split. lia. Qed.

(** The witness of C4: the first page of three polls out of five. *)
Lemma fetch_polls_returned_count_witness :
  exists data n,
    @send (poll_source [VInt 1; VInt 2; VInt 3; VInt 4; VInt 5]) 0%nat
      (GET ("http://localhost:8000" ++ "/polls") 0 3) = (Response 200 (Some data), 1%nat) /\
    data = VList [VInt 1; VInt 2; VInt 3] /\ n = 3.
Proof.
  destruct (@fetch_polls_returned_count
              (poll_source [VInt 1; VInt 2; VInt 3; VInt 4; VInt 5])
              0%nat 1%nat 0 3 "http://localhost:8000" _ eq_refl eq_refl)
    as (data & n & Hsend & _ & Hlen & _).
  exists data, n. split; [ exact Hsend | ].
  injection Hsend as <-. injection Hlen as <-. split; reflexivity.
Defined.

(** ** Properties of the pagination loop *)

Lemma length_list_ascii_of_string s :
  List.length (list_ascii_of_string s) = String.length s.
Proof. induction s as [ | c s IH]; cbn; [ reflexivity | now rewrite IH ]. Qed.

Lemma py_iter_len v items :
  py_iter v = Returned items -> py_len v = Returned (Z.of_nat (List.length items)).
Proof.
  destruct v; cbn; intros H; try discriminate H; injection H as <-.
  - now rewrite length_map, length_list_ascii_of_string.
  - reflexivity.
  - now rewrite length_map.
Qed.

Lemma truthy_iter_nonempty v items :
  truthy v = true -> py_iter v = Returned items -> items <> [].
Proof.
  destruct v; cbn; intros Ht H; try discriminate H; injection H as <-.
  - destruct s; [ discriminate Ht | discriminate ].
  - destruct l; [ discriminate Ht | discriminate ].
  - destruct kvs as [ | [k x] kvs]; [ discriminate Ht | discriminate ].
Qed.

Section Aggregator.
Context {R : Requests}.
Variable base_url : string.
Variable page_size : Z.
Variable max_polls : option Z.

Local Abbreviation current_limit := (current_limit page_size max_polls).
Local Abbreviation loop_body := (loop_body base_url page_size max_polls).
Local Abbreviation fetch_all_loop := (fetch_all_loop base_url page_size max_polls).
Local Abbreviation fetch_all_polls := (fetch_all_polls base_url page_size max_polls).
Local Abbreviation visits := (visits base_url page_size max_polls).
Local Abbreviation finish := (finish page_size).

(** Every value [fetch_polls] returns is a dict with a boolean [success];
    the ones without success have no [data]. *)
Lemma fetch_polls_success_field w skip limit r w' :
  fetch_polls w skip limit base_url = (Returned r, w') ->
  exists b, get r "success" = Returned (VBool b) /\
            (b = false -> subscript r "data" = Raised KeyError).
Proof.
  unfold fetch_polls.
  destruct (send w (GET (base_url ++ "/polls") skip limit)) as [o w1].
  destruct o as [ | e | status [body | ] ];
    try (intros H; injection H as <- _; exists false; split; reflexivity).
  destruct (status =? 200).
  - destruct (py_len body); intros H; [ | discriminate H ].
    injection H as <- _. exists true. split; [ reflexivity | discriminate ].
  - intros H; injection H as <- _; exists false; split; reflexivity.
Qed.

(** What one pass through the loop body does, by the way it ends. *)
Lemma loop_body_cases w st :
  match loop_body w st with
  | Continue w' st' =>
      exists limit r data items,
        current_limit st = Some limit /\
        fetch_polls w (skip st) limit base_url = (Returned r, w') /\
        succeeded r = true /\
        subscript r "data" = Returned data /\
        py_iter data = Returned items /\
        st' = advance st items /\
        items <> [] /\ limit <= Z.of_nat (List.length items)
  | Break w' st' =>
      (current_limit st = None /\ w' = w /\ st' = st) \/
      exists limit r data,
        current_limit st = Some limit /\
        fetch_polls w (skip st) limit base_url = (Returned r, w') /\
        succeeded r = true /\
        subscript r "data" = Returned data /\
        ((truthy data = false /\ st' = st) \/
         exists items, py_iter data = Returned items /\ st' = advance st items /\
                       Z.of_nat (List.length items) < limit)
  | Return w' r =>
      exists limit,
        current_limit st = Some limit /\
        fetch_polls w (skip st) limit base_url = (Returned r, w') /\
        succeeded r = false
  | Raise _ _ => True
  end.
Proof.
  unfold loop_body.
  destruct (current_limit st) as [limit | ]; [ | left; auto ].
  destruct (fetch_polls w (skip st) limit base_url) as [[r | e] w1] eqn:Hf; [ | exact I ].
  unfold succeeded.
  destruct (get r "success") as [ok | e] eqn:Hs; [ | exact I ].
  destruct (truthy ok) eqn:Hok; cbn [negb].
  2:{ exists limit. rewrite Hs, Hok. auto. }
  destruct (subscript r "data") as [data | e] eqn:Hd; [ | exact I ].
  destruct (truthy data) eqn:Ht; cbn [negb].
  2:{ right. exists limit, r, data. rewrite Hs, Hok. auto 10. }
  destruct (py_iter data) as [items | e] eqn:Hi.
  2:{ destruct (py_len data); exact I. }
  rewrite (py_iter_len _ _ Hi).
  destruct (Z.of_nat (List.length items) <? limit) eqn:Hlt.
  - apply Z.ltb_lt in Hlt. right. exists limit, r, data. rewrite Hs, Hok.
    repeat split; trivial. right. exists items. auto.
  - apply Z.ltb_ge in Hlt. exists limit, r, data, items. rewrite Hs, Hok.
    repeat split; trivial. exact (truthy_iter_nonempty _ _ Ht Hi).
Qed.

(** The pass that receives a successful page holding a list. *)
Lemma loop_body_page w st limit w' status items pagination :
  current_limit st = Some limit ->
  fetch_polls w (skip st) limit base_url
  = (Returned (VDict [("success", VBool true); ("status_code", status);
                      ("data", VList items); ("pagination", pagination)]), w') ->
  loop_body w st
  = if (List.length items =? 0)%nat then Break w' st
    else if Z.of_nat (List.length items) <? limit
         then Break w' (advance st items)
         else Continue w' (advance st items).
Proof.
  intros Hlim Hf. unfold loop_body. rewrite Hlim, Hf.
  destruct items; reflexivity.
Qed.

Lemma fuel_mono fuel w st x :
  fetch_all_loop fuel w st = Some x ->
  forall k, fetch_all_loop (fuel + k) w st = Some x.
Proof.
  revert w st. induction fuel as [ | fuel IH]; intros w st H k; [ discriminate H | ].
  cbn in *. destruct (loop_body w st); auto.
Qed.

Lemma visits_run w0 st0 w st :
  visits w0 st0 w st ->
  forall fuel x, fetch_all_loop fuel w st = Some x ->
  exists k, fetch_all_loop (k + fuel) w0 st0 = Some x.
Proof.
  induction 1 as [ | w1 st1 w2 st2 Hv IH Hstep]; intros fuel x Hrun.
  - exists 0%nat. exact Hrun.
  - destruct (IH (S fuel) x) as [k Hk].
    + cbn. rewrite Hstep. exact Hrun.
    + exists (S k). replace (S k + fuel)%nat with (k + S fuel)%nat by lia. exact Hk.
Qed.

(** C3. When a call of [fetch_polls] made by the loop, at whatever page,
    returns a value without success, [fetch_all_polls] terminates and
    returns that very value: the polls accumulated so far are dropped, and
    the value has no [data] field. *)
Theorem failure_is_propagated (w0 w w' : World) (st : loop_state) (limit : Z) (r : value) :
  visits w0 initial w st ->
  current_limit st = Some limit ->
  fetch_polls w (skip st) limit base_url = (Returned r, w') ->
  succeeded r = false ->
  (exists fuel0, forall fuel, (fuel0 <= fuel)%nat ->
      fetch_all_polls fuel w0 = Some (Returned r, w')) /\
  subscript r "data" = Raised KeyError.
Proof.
  intros Hv Hlim Hf Hfail.
  destruct (fetch_polls_success_field _ _ _ _ _ Hf) as (b & Hs & Hdata).
  assert (Hb : b = false).
  { unfold succeeded in Hfail. rewrite Hs in Hfail. exact Hfail. }
  split; [ | exact (Hdata Hb) ].
  assert (Hstep : fetch_all_loop 1 w st = Some (Returned r, w')).
  { cbn. unfold loop_body. rewrite Hlim, Hf, Hs, Hb. reflexivity. }
  destruct (visits_run _ _ _ _ Hv _ _ Hstep) as [k Hk].
  exists (k + 1)%nat. intros fuel Hle.
  replace fuel with ((k + 1) + (fuel - (k + 1)))%nat by lia.
  apply fuel_mono. exact Hk.
Qed.

Lemma advance_agree st items : counters_agree st -> counters_agree (advance st items).
Proof.
  intros [Hs Ht]. unfold counters_agree, advance; cbn.
  rewrite length_app. lia.
Qed.

Lemma continue_agree w st w' st' :
  loop_body w st = Continue w' st' -> counters_agree st -> counters_agree st'.
Proof.
  intros Hstep Hagree. pose proof (loop_body_cases w st) as H. rewrite Hstep in H.
  destruct H as (limit & r & data & items & _ & _ & _ & _ & _ & -> & _).
  now apply advance_agree.
Qed.

Lemma break_agree w st w' st' :
  loop_body w st = Break w' st' -> counters_agree st -> counters_agree st'.
Proof.
  intros Hstep Hagree. pose proof (loop_body_cases w st) as H. rewrite Hstep in H.
  destruct H as [(_ & _ & ->) | (limit & r & data & _ & _ & _ & _ & H)]; [ exact Hagree | ].
  destruct H as [(_ & ->) | (items & _ & -> & _)]; [ exact Hagree | ].
  now apply advance_agree.
Qed.

Lemma visits_agree w0 st0 w st :
  visits w0 st0 w st -> counters_agree st0 -> counters_agree st.
Proof.
  induction 1 as [ | w1 st1 w2 st2 _ IH Hstep]; intros Hagree; [ exact Hagree | ].
  eapply continue_agree; [ exact Hstep | exact (IH Hagree) ].
Qed.

Lemma initial_agree : counters_agree initial.
Proof. split; reflexivity. Qed.

Lemma visits_skip_mono w0 st0 w st : visits w0 st0 w st -> skip st0 <= skip st.
Proof.
  induction 1 as [ | w1 st1 w2 st2 _ IH Hstep]; [ lia | ].
  pose proof (loop_body_cases w1 st1) as H. rewrite Hstep in H.
  destruct H as (limit & r & data & items & _ & _ & _ & _ & _ & -> & _).
  cbn. lia.
Qed.

(** C5. Wherever the loop stands, the [skip] of the request it is about to
    make is the number of polls fetched so far, which is the length of the
    accumulated list.  A pass that receives a non-empty page, short or
    full, appends its items and moves both counters by their number, not by
    the limit it asked for; it breaks when the page is short and goes round
    again otherwise.  The state a pass breaks with has its counters equal
    too, and is the state before when nothing was fetched.  When a pass goes
    round again the number of items is at least the limit, so every later
    request starts past the window of this one. *)
Theorem skip_tracks_total_fetched (w0 w : World) (st : loop_state) :
  visits w0 initial w st ->
  skip st = total_fetched st /\
  total_fetched st = Z.of_nat (List.length (all_polls st)) /\
  (forall limit r data items w',
     current_limit st = Some limit ->
     fetch_polls w (skip st) limit base_url = (Returned r, w') ->
     succeeded r = true ->
     subscript r "data" = Returned data ->
     truthy data = true ->
     py_iter data = Returned items ->
     exists st',
       loop_body w st
       = (if Z.of_nat (List.length items) <? limit then Break w' st' else Continue w' st') /\
       all_polls st' = (all_polls st ++ items)%list /\
       skip st' = skip st + Z.of_nat (List.length items) /\
       total_fetched st' = total_fetched st + Z.of_nat (List.length items) /\
       skip st' = total_fetched st') /\
  (forall w' st', loop_body w st = Break w' st' ->
     skip st' = total_fetched st' /\
     total_fetched st' = Z.of_nat (List.length (all_polls st')) /\
     ((current_limit st = None /\ w' = w /\ st' = st) \/
      exists limit r data,
        current_limit st = Some limit /\
        fetch_polls w (skip st) limit base_url = (Returned r, w') /\
        subscript r "data" = Returned data /\
        ((truthy data = false /\ st' = st) \/
         exists items,
           py_iter data = Returned items /\
           Z.of_nat (List.length items) < limit /\
           all_polls st' = (all_polls st ++ items)%list /\
           skip st' = skip st + Z.of_nat (List.length items) /\
           total_fetched st' = total_fetched st + Z.of_nat (List.length items)))) /\
  (forall w' st', loop_body w st = Continue w' st' ->
    exists limit r data items,
      current_limit st = Some limit /\
      fetch_polls w (skip st) limit base_url = (Returned r, w') /\
      subscript r "data" = Returned data /\
      py_iter data = Returned items /\
      all_polls st' = (all_polls st ++ items)%list /\
      skip st' = skip st + Z.of_nat (List.length items) /\
      total_fetched st' = total_fetched st + Z.of_nat (List.length items) /\
      forall w2 st2, visits w' st' w2 st2 ->
        skip st + limit <= skip st2 /\ skip st < skip st2).
Proof.
  intros Hv. pose proof (visits_agree _ _ _ _ Hv initial_agree) as Hagree.
  destruct Hagree as [Hs Ht].
  split; [ exact Hs | split; [ exact Ht | ] ]. split; [ | split ].
  - intros limit r data items w' Hlim Hf Hok Hd Htruthy Hi.
    exists (advance st items). split.
    + unfold loop_body. rewrite Hlim, Hf. unfold succeeded in Hok.
      destruct (get r "success") as [ok | e]; [ | discriminate Hok ].
      rewrite Hok, Hd, Htruthy, Hi, (py_iter_len _ _ Hi). cbn [negb].
      destruct (Z.of_nat (List.length items) <? limit); reflexivity.
    + cbn [all_polls skip total_fetched advance]. repeat split. lia.
  - intros w' st' Hstep.
    destruct (break_agree _ _ _ _ Hstep (conj Hs Ht)) as [Hs' Ht'].
    split; [ exact Hs' | split; [ exact Ht' | ] ].
    pose proof (loop_body_cases w st) as H. rewrite Hstep in H.
    destruct H as [H | (limit & r & data & Hlim & Hf & _ & Hd & H)]; [ left; exact H | ].
    right. exists limit, r, data. repeat split; trivial.
    destruct H as [H | (items & Hi & -> & Hlt)]; [ left; exact H | ].
    right. exists items. repeat split; trivial.
  - intros w' st' Hstep. pose proof (loop_body_cases w st) as H. rewrite Hstep in H.
    destruct H as (limit & r & data & items & Hlim & Hf & _ & Hd & Hi & -> & Hne & Hle).
    exists limit, r, data, items. repeat split; trivial.
    + pose proof (visits_skip_mono _ _ _ _ H) as Hm. cbn in Hm. lia.
    + pose proof (visits_skip_mono _ _ _ _ H) as Hm. cbn in Hm.
      destruct items; [ contradiction | cbn in Hm; lia ].
Qed.

Lemma ceil_div_floor a b :
  1 <= b -> a / b + (if a mod b >? 0 then 1 else 0) = ceil_div a b.
Proof.
  intros Hb. unfold ceil_div.
  pose proof (Z.mod_pos_bound a b ltac:(lia)) as Hm.
  destruct (Z.eq_dec (a mod b) 0) as [E | E].
  - rewrite (Z.div_opp_l_z a b ltac:(lia) E), E. cbn. lia.
  - rewrite (Z.div_opp_l_nz a b ltac:(lia) E).
    destruct (a mod b >? 0) eqn:Hgt; [ lia | ].
    rewrite Z.gtb_ltb in Hgt. apply Z.ltb_ge in Hgt. lia.
Qed.

(** A result with success comes from the statement after the loop. *)
Lemma success_comes_from_finish fuel w st r w' :
  fetch_all_loop fuel w st = Some (Returned r, w') ->
  succeeded r = true ->
  counters_agree st ->
  exists st', counters_agree st' /\ finish st' = Returned r.
Proof.
  revert w st. induction fuel as [ | fuel IH]; intros w st Hrun Hok Hagree;
    [ discriminate Hrun | ].
  cbn in Hrun. pose proof (loop_body_cases w st) as H.
  destruct (loop_body w st) as [w1 st1 | w1 st1 | w1 r1 | w1 e] eqn:Hstep.
  - eapply IH; [ exact Hrun | exact Hok | eapply continue_agree; eassumption ].
  - exists st1. split; [ eapply break_agree; eassumption | ].
    now injection Hrun as -> _.
  - destruct H as (limit & _ & _ & Hfail). injection Hrun as <- _.
    rewrite Hok in Hfail. discriminate Hfail.
  - discriminate Hrun.
Qed.

(** C10. With a page size of at least 1, the [total_requests] of every
    successful result of [fetch_all_polls] is [ceil(total_count / page_size)],
    computed from the final [skip], which equals [total_count].  It does not
    count the requests made: when the first page comes back empty, one
    request has been answered (the world is the one after that request) and
    [total_requests] is 0. *)
Theorem total_requests_is_ceiling :
  1 <= page_size ->
  (forall fuel w0 r w',
      fetch_all_polls fuel w0 = Some (Returned r, w') ->
      succeeded r = true ->
      exists total,
        0 <= total /\
        subscript r "total_count" = Returned (VInt total) /\
        path r ["pagination_info"; "total_requests"]
        = Returned (VInt (ceil_div total page_size))) /\
  (forall fuel w0 w1 limit,
      current_limit initial = Some limit ->
      send w0 (GET (base_url ++ "/polls") 0 limit) = (Response 200 (Some (VList [])), w1) ->
      exists r,
        fetch_all_polls (S fuel) w0 = Some (Returned r, w1) /\
        subscript r "total_count" = Returned (VInt 0) /\
        path r ["pagination_info"; "total_requests"] = Returned (VInt 0)).
Proof.
  intros Hp. split.
  - intros fuel w0 r w' Hrun Hok.
    destruct (success_comes_from_finish _ _ _ _ _ Hrun Hok initial_agree)
      as (st & [Hs Ht] & Hfin).
    unfold finish in Hfin.
    replace (page_size =? 0) with false in Hfin by (symmetry; apply Z.eqb_neq; lia).
    injection Hfin as <-. exists (total_fetched st). cbn.
    split; [ lia | split; [ reflexivity | ] ].
    rewrite Hs, (ceil_div_floor _ _ Hp). reflexivity.
  - intros fuel w0 w1 limit Hlim Hsend.
    unfold fetch_all_polls. cbn [fetch_all_loop].
    unfold loop_body. rewrite Hlim. cbn [skip initial].
    unfold fetch_polls. rewrite Hsend. cbn.
    unfold finish.
    replace (page_size =? 0) with false by (symmetry; apply Z.eqb_neq; lia).
    eexists. split; [ reflexivity | ]. cbn. split; [ reflexivity | ].
    rewrite ?Z.div_0_l, ?Z.mod_0_l by lia. reflexivity.
Qed.

End Aggregator.

(** ** The loop against a data source that holds [records] *)

Lemma firstn_then_page (A : Type) (l : list A) (k j : nat) :
  (firstn k l ++ firstn j (skipn k l))%list = firstn (k + j) l.
Proof.
  revert l. induction k as [ | k IH]; intros l; [ reflexivity | ].
  destruct l as [ | a l]; cbn.
  - now rewrite firstn_nil.
  - now rewrite IH.
Qed.

Lemma firstn_past_end (A : Type) (l : list A) (k j : nat) :
  (k <= List.length l)%nat ->
  firstn (k + j) l = firstn (k + Nat.min j (List.length l - k)) l.
Proof.
  intros Hk. destruct (Nat.le_gt_cases j (List.length l - k)) as [H | H].
  - now rewrite Nat.min_l.
  - rewrite Nat.min_r by lia. rewrite !firstn_all2 by lia. reflexivity.
Qed.

Section Source.
Variable records : list value.
Variable base_url : string.
Variable page_size : Z.
Variable max_polls : option Z.

Local Abbreviation N := (List.length records).

Lemma advance_fetched (k j : nat) :
  (k <= N)%nat ->
  advance (fetched records k) (firstn j (skipn k records))
  = fetched records (k + Nat.min j (N - k)).
Proof.
  intros Hk. unfold advance, fetched; cbn.
  rewrite length_firstn, length_skipn, firstn_then_page.
  rewrite (firstn_past_end _ records k j Hk). f_equal; lia.
Qed.

(** One pass of the loop at position [k]: the source sends
    [min(limit, N - k)] records. *)
Lemma source_pass (n k : nat) (limit : Z) :
  current_limit page_size max_polls (fetched records k) = Some limit ->
  1 <= limit -> (k <= N)%nat ->
  @loop_body (poll_source records) base_url page_size max_polls n (fetched records k)
  = let m := Nat.min (Z.to_nat limit) (N - k) in
    if (m =? 0)%nat then @Break (poll_source records) (S n) (fetched records k)
    else if (m <? Z.to_nat limit)%nat
         then @Break (poll_source records) (S n) (fetched records (k + m))
         else @Continue (poll_source records) (S n) (fetched records (k + m)).
Proof.
  intros Hlim Hl Hk.
  rewrite (@loop_body_page (poll_source records) base_url page_size max_polls
             n (fetched records k) limit (S n) (VInt 200)
             (page records (Z.of_nat k) limit)
             (VDict [("skip", VInt (Z.of_nat k)); ("limit", VInt limit);
                     ("returned_count",
                       VInt (Z.of_nat (List.length (page records (Z.of_nat k) limit))))])
             Hlim eq_refl).
  unfold page. rewrite Nat2Z.id, (advance_fetched k (Z.to_nat limit) Hk).
  rewrite length_firstn, length_skipn. cbn zeta.
  set (m := Nat.min (Z.to_nat limit) (N - k)).
  destruct (m =? 0)%nat; [ reflexivity | ].
  destruct (m <? Z.to_nat limit)%nat eqn:Hlt.
  - apply Nat.ltb_lt in Hlt.
    replace (Z.of_nat m <? limit) with true by (symmetry; apply Z.ltb_lt; lia).
    reflexivity.
  - apply Nat.ltb_ge in Hlt.
    replace (Z.of_nat m <? limit) with false by (symmetry; apply Z.ltb_ge; lia).
    reflexivity.
Qed.

End Source.

Section SourceRuns.
Variable records : list value.
Variable base_url : string.
Variable page_size : Z.
Hypothesis page_size_pos : 1 <= page_size.

Local Abbreviation N := (List.length records).

(** Without [max_polls], from position [k] the loop reaches the end of the
    records within [N - k + 1] passes. *)
Lemma source_loop_all (fuel : nat) :
  forall k n, (k <= N)%nat -> (N - k < fuel)%nat ->
  exists n',
    @fetch_all_loop (poll_source records) base_url page_size None fuel n (fetched records k)
    = Some (finish page_size (fetched records N), n').
Proof.
  induction fuel as [ | fuel IH]; intros k n Hk Hfuel; [ lia | ].
  cbn [fetch_all_loop].
  rewrite (source_pass records base_url page_size None n k page_size eq_refl page_size_pos Hk).
  cbn zeta. set (m := Nat.min (Z.to_nat page_size) (N - k)).
  destruct (m =? 0)%nat eqn:Hm0.
  - apply Nat.eqb_eq in Hm0. replace k with N by lia. eexists; reflexivity.
  - apply Nat.eqb_neq in Hm0.
    destruct (m <? Z.to_nat page_size)%nat eqn:Hlt.
    + apply Nat.ltb_lt in Hlt. replace (k + m)%nat with N by lia. eexists; reflexivity.
    + apply IH; lia.
Qed.

Variable M : Z.
Hypothesis M_pos : 0 < M.
Hypothesis M_below : M < Z.of_nat N.

(** With [max_polls = M], a pass at position [k <= M] stops at [k = M] and
    otherwise receives a full page of [min(page_size, M - k)] records. *)
Lemma source_pass_max (n k : nat) :
  (k <= Z.to_nat M)%nat ->
  let limit := Z.min page_size (M - Z.of_nat k) in
  @loop_body (poll_source records) base_url page_size (Some M) n (fetched records k)
  = if (k =? Z.to_nat M)%nat
    then @Break (poll_source records) n (fetched records k)
    else @Continue (poll_source records) (S n) (fetched records (k + Z.to_nat limit)).
Proof.
  intros Hk limit. destruct (k =? Z.to_nat M)%nat eqn:Ek.
  - apply Nat.eqb_eq in Ek. unfold loop_body, current_limit. cbn [total_fetched fetched].
    replace (M - Z.of_nat k <=? 0) with true by (symmetry; apply Z.leb_le; lia).
    reflexivity.
  - apply Nat.eqb_neq in Ek.
    assert (Hlim : current_limit page_size (Some M) (fetched records k) = Some limit).
    { unfold current_limit. cbn [total_fetched fetched].
      replace (M - Z.of_nat k <=? 0) with false by (symmetry; apply Z.leb_gt; lia).
      reflexivity. }
    rewrite (source_pass records base_url page_size (Some M) n k limit Hlim
               ltac:(unfold limit; lia) ltac:(lia)).
    cbn zeta.
    replace (Nat.min (Z.to_nat limit) (N - k)) with (Z.to_nat limit)
      by (unfold limit; lia).
    replace (Z.to_nat limit =? 0)%nat with false
      by (symmetry; apply Nat.eqb_neq; unfold limit; lia).
    now rewrite Nat.ltb_irrefl.
Qed.

Lemma source_loop_max (fuel : nat) :
  forall k n, (k <= Z.to_nat M)%nat -> (Z.to_nat M - k < fuel)%nat ->
  exists n',
    @fetch_all_loop (poll_source records) base_url page_size (Some M) fuel n
      (fetched records k)
    = Some (finish page_size (fetched records (Z.to_nat M)), n').
Proof.
  induction fuel as [ | fuel IH]; intros k n Hk Hfuel; [ lia | ].
  cbn [fetch_all_loop]. rewrite (source_pass_max n k Hk). cbn zeta.
  destruct (k =? Z.to_nat M)%nat eqn:Ek.
  - apply Nat.eqb_eq in Ek. subst k. eexists; reflexivity.
  - apply Nat.eqb_neq in Ek. apply IH; lia.
Qed.

Lemma source_visits_max (n0 k0 : nat) w st :
  @visits (poll_source records) base_url page_size (Some M) n0 (fetched records k0) w st ->
  (k0 <= Z.to_nat M)%nat ->
  exists k, st = fetched records k /\ (k <= Z.to_nat M)%nat.
Proof.
  induction 1 as [ | w1 st1 w2 st2 _ IH Hstep]; intros Hk0.
  - exists k0. auto.
  - destruct (IH Hk0) as (k & -> & Hk).
    rewrite (source_pass_max w1 k Hk) in Hstep. cbn zeta in Hstep.
    destruct (k =? Z.to_nat M)%nat eqn:Ek; [ discriminate Hstep | ].
    apply Nat.eqb_neq in Ek. injection Hstep as _ <-.
    eexists. split; [ reflexivity | lia ].
Qed.

End SourceRuns.

(** C1. Against a data source that holds [N] records and answers every
    request with the window it was asked for, [fetch_all_polls] with a page
    size of at least 1 and no [max_polls] leaves its loop within [N + 1]
    passes and returns a success value: [data] is the whole list of
    records in their order, [total_count] is [N]. *)
Theorem fetch_all_polls_complete (records : list value) (base_url : string)
    (page_size : Z) (fuel n : nat) :
  1 <= page_size ->
  (List.length records < fuel)%nat ->
  option_map fst (@fetch_all_polls (poll_source records) base_url page_size None fuel n)
  = Some (Returned
            (VDict [("success", VBool true);
                    ("data", VList records);
                    ("total_count", VInt (Z.of_nat (List.length records)));
                    ("pagination_info",
                      VDict [("page_size", VInt page_size);
                             ("total_requests",
                               VInt (ceil_div (Z.of_nat (List.length records))
                                              page_size))])])).
Proof.
  intros Hp Hfuel.
  destruct (source_loop_all records base_url page_size Hp fuel 0 n
              ltac:(lia) ltac:(lia)) as [n' Hrun].
  unfold fetch_all_polls. change initial with (fetched records 0).
  rewrite Hrun. cbn [option_map fst]. unfold finish.
  replace (page_size =? 0) with false by (symmetry; apply Z.eqb_neq; lia).
  cbn [all_polls skip total_fetched fetched].
  rewrite firstn_all, (ceil_div_floor _ _ Hp). reflexivity.
Qed.

(** C2. Against the same source, with [max_polls = M] for [0 < M < N] and a
    page size of at least 1: [fetch_all_polls] returns the first [M]
    records, exactly [M] of them.  Wherever the loop stands, the
    accumulated list has [total_fetched <= M] items; the limit of the next
    request is [min(page_size, M - total_fetched)]; the loop breaks, making
    no request, as soon as [M - total_fetched <= 0], and otherwise the page
    it receives is full. *)
Theorem max_polls_is_respected (records : list value) (base_url : string)
    (page_size M : Z) :
  1 <= page_size ->
  0 < M < Z.of_nat (List.length records) ->
  (forall fuel n, (Z.to_nat M < fuel)%nat ->
     option_map fst
       (@fetch_all_polls (poll_source records) base_url page_size (Some M) fuel n)
     = Some (Returned
               (VDict [("success", VBool true);
                       ("data", VList (firstn (Z.to_nat M) records));
                       ("total_count", VInt M);
                       ("pagination_info",
                         VDict [("page_size", VInt page_size);
                                ("total_requests", VInt (ceil_div M page_size))])]))) /\
  Z.of_nat (List.length (firstn (Z.to_nat M) records)) = M /\
  (forall n w st,
     @visits (poll_source records) base_url page_size (Some M) n initial w st ->
     Z.of_nat (List.length (all_polls st)) = total_fetched st /\
     total_fetched st <= M /\
     current_limit page_size (Some M) st
     = (if M - total_fetched st <=? 0 then None
        else Some (Z.min page_size (M - total_fetched st))) /\
     (M - total_fetched st <= 0 ->
      @loop_body (poll_source records) base_url page_size (Some M) w st
      = @Break (poll_source records) w st) /\
     (0 < M - total_fetched st ->
      exists st',
        @loop_body (poll_source records) base_url page_size (Some M) w st
        = @Continue (poll_source records) (S w) st' /\
        total_fetched st'
        = total_fetched st + Z.min page_size (M - total_fetched st))).
Proof.
  intros Hp HM. split; [ | split ].
  - intros fuel n Hfuel.
    destruct (source_loop_max records base_url page_size Hp M ltac:(lia) ltac:(lia)
                fuel 0 n ltac:(lia) ltac:(lia)) as [n' Hrun].
    unfold fetch_all_polls. change initial with (fetched records 0).
    rewrite Hrun. cbn [option_map fst]. unfold finish.
    replace (page_size =? 0) with false by (symmetry; apply Z.eqb_neq; lia).
    cbn [all_polls skip total_fetched fetched].
    rewrite (ceil_div_floor _ _ Hp), Z2Nat.id by lia. reflexivity.
  - rewrite length_firstn. lia.
  - intros n w st Hv.
    change initial with (fetched records 0) in Hv.
    destruct (source_visits_max records base_url page_size Hp M ltac:(lia) ltac:(lia)
                n 0 w st Hv ltac:(lia)) as (k & -> & Hk).
    pose proof (source_pass_max records base_url page_size Hp M ltac:(lia) ltac:(lia)
                  w k Hk) as Hpass.
    cbn zeta in Hpass. cbn [all_polls total_fetched fetched].
    split; [ rewrite length_firstn; lia | ].
    split; [ lia | ].
    split; [ reflexivity | ].
    destruct (k =? Z.to_nat M)%nat eqn:Ek.
    + apply Nat.eqb_eq in Ek. split; [ intros _; exact Hpass | lia ].
    + apply Nat.eqb_neq in Ek. split; [ lia | ].
      intros _. eexists. split; [ exact Hpass | ].
      cbn [total_fetched fetched]. lia.
Qed.

(** The witness of C1: three records, fetched two at a time. *)
Lemma fetch_all_polls_complete_witness :
  1 <= 2 /\
  (List.length [VInt 11; VInt 12; VInt 13] < 4)%nat /\
  option_map fst (@fetch_all_polls (poll_source [VInt 11; VInt 12; VInt 13])
                    "http://localhost:8000" 2 None 4 0%nat)
  = Some (Returned
            (VDict [("success", VBool true);
                    ("data", VList [VInt 11; VInt 12; VInt 13]);
                    ("total_count", VInt 3);
                    ("pagination_info",
                      VDict [("page_size", VInt 2); ("total_requests", VInt 2)])])).
Proof.
  assert (H1 : 1 <= 2) by lia.
  assert (H2 : (List.length [VInt 11; VInt 12; VInt 13] < 4)%nat) by (cbn; lia).
  split; [ exact H1 | split; [ exact H2 | ] ].
  exact (fetch_all_polls_complete [VInt 11; VInt 12; VInt 13]
           "http://localhost:8000" 2 4 0 H1 H2).
Defined.

(** The witness of C2: at most three of five records, two at a time. *)
Lemma max_polls_is_respected_witness :
  1 <= 2 /\
  0 < 3 < Z.of_nat (List.length [VInt 11; VInt 12; VInt 13; VInt 14; VInt 15]) /\
  option_map fst (@fetch_all_polls (poll_source [VInt 11; VInt 12; VInt 13; VInt 14; VInt 15])
                    "http://localhost:8000" 2 (Some 3) 4 0%nat)
  = Some (Returned
            (VDict [("success", VBool true);
                    ("data", VList [VInt 11; VInt 12; VInt 13]);
                    ("total_count", VInt 3);
                    ("pagination_info",
                      VDict [("page_size", VInt 2); ("total_requests", VInt 2)])])).
Proof.
  assert (H1 : 1 <= 2) by lia.
  assert (H2 : 0 < 3 < Z.of_nat (List.length [VInt 11; VInt 12; VInt 13; VInt 14; VInt 15]))
    by (cbn; lia).
  split; [ exact H1 | split; [ exact H2 | ] ].
  refine (proj1 (max_polls_is_respected [VInt 11; VInt 12; VInt 13; VInt 14; VInt 15]
                   "http://localhost:8000" 2 3 H1 H2) 4%nat 0%nat _).
  cbn; lia.
Defined.

(** The witness of C3: one full page, then the connection is lost. *)
Lemma failure_is_propagated_witness :
  exists fuel0, forall fuel, (fuel0 <= fuel)%nat ->
    @fetch_all_polls (scripted [[VInt 11; VInt 12]] ConnectionError)
      "http://localhost:8000" 2 None fuel 0%nat
    = Some (Returned (VDict [("success", VBool false);
                             ("error", VStr (connection_msg "http://localhost:8000"))]),
            2%nat).
Proof.
  refine (proj1 (@failure_is_propagated (scripted [[VInt 11; VInt 12]] ConnectionError)
                   "http://localhost:8000" 2 None 0%nat 1%nat 2%nat
                   (advance initial [VInt 11; VInt 12]) 2 _ _ eq_refl eq_refl eq_refl)).
  apply (@visits_next (scripted [[VInt 11; VInt 12]] ConnectionError)
           "http://localhost:8000" 2 None 0%nat initial 0%nat initial).
  - apply visits_here.
  - reflexivity.
Defined.

(** The witness of C5: a first page of three polls where five were asked
    for; the pass breaks, with both counters at 3. *)
Lemma skip_tracks_total_fetched_witness :
  exists st',
    @loop_body (poll_source [VInt 11; VInt 12; VInt 13]) "http://localhost:8000" 5 None
      0%nat initial
    = @Break (poll_source [VInt 11; VInt 12; VInt 13]) 1%nat st' /\
    all_polls st' = [VInt 11; VInt 12; VInt 13] /\
    skip st' = 3 /\
    total_fetched st' = 3.
Proof.
  destruct (@skip_tracks_total_fetched (poll_source [VInt 11; VInt 12; VInt 13])
              "http://localhost:8000" 5 None 0%nat 0%nat initial
              (@visits_here (poll_source [VInt 11; VInt 12; VInt 13])
                 "http://localhost:8000" 5 None 0%nat initial))
    as (_ & _ & Hpage & _).
  destruct (Hpage 5
              (VDict [("success", VBool true); ("status_code", VInt 200);
                      ("data", VList [VInt 11; VInt 12; VInt 13]);
                      ("pagination", VDict [("skip", VInt 0); ("limit", VInt 5);
                                            ("returned_count", VInt 3)])])
              (VList [VInt 11; VInt 12; VInt 13]) [VInt 11; VInt 12; VInt 13] 1%nat
              eq_refl eq_refl eq_refl eq_refl eq_refl eq_refl)
    as (st' & Hbody & Hall & Hskip & Htotal & _).
  exists st'. split; [ exact Hbody | ]. split; [ exact Hall | ].
  split; [ exact Hskip | exact Htotal ].
Defined.

(** The witness of C10: three records, two at a time, make two pages. *)
Lemma total_requests_is_ceiling_witness :
  1 <= 2 /\
  exists total,
    0 <= total /\
    subscript (VDict [("success", VBool true);
                      ("data", VList [VInt 11; VInt 12; VInt 13]);
                      ("total_count", VInt 3);
                      ("pagination_info",
                        VDict [("page_size", VInt 2); ("total_requests", VInt 2)])])
      "total_count" = Returned (VInt total) /\
    path (VDict [("success", VBool true);
                 ("data", VList [VInt 11; VInt 12; VInt 13]);
                 ("total_count", VInt 3);
                 ("pagination_info",
                   VDict [("page_size", VInt 2); ("total_requests", VInt 2)])])
      ["pagination_info"; "total_requests"] = Returned (VInt (ceil_div total 2)).
Proof.
  assert (H1 : 1 <= 2) by lia.
  split; [ exact H1 | ].
  exact (proj1 (@total_requests_is_ceiling (poll_source [VInt 11; VInt 12; VInt 13])
                  "http://localhost:8000" 2 None H1) 4%nat 0%nat _ 2%nat eq_refl eq_refl).
Defined.

(** ** Properties of the formatter *)

Lemma returns_bind (A C : Type) (m : io A) (k : A -> io C) :
  returns (bind m k)
  = match snd m with Returned a => returns (k a) | Raised _ => false end.
Proof.
  unfold returns, bind. destruct m as [out [a | e]]; cbn; [ | reflexivity ].
  destruct (k a); reflexivity.
Qed.

Lemma fst_bind (A C : Type) (m : io A) (k : A -> io C) :
  fst (bind m k)
  = (fst m ++ match snd m with Returned a => fst (k a) | Raised _ => [] end)%list.
Proof.
  unfold bind. destruct m as [out [a | e]]; cbn.
  - destruct (k a); reflexivity.
  - now rewrite app_nil_r.
Qed.

Lemma returns_for_each (A : Type) (body : A -> io unit) (xs : list A) :
  returns (for_each body xs) = forallb (fun x => returns (body x)) xs.
Proof.
  induction xs as [ | x xs IH]; [ reflexivity | ].
  cbn [for_each forallb]. rewrite returns_bind. unfold returns at 2.
  destruct (snd (body x)); [ exact IH | reflexivity ].
Qed.

(** As long as the bodies return, the output of a loop is the outputs of
    its passes, one after the other. *)
Lemma fst_for_each (A : Type) (body : A -> io unit) (xs : list A) (y : A) (zs : list A) :
  forallb (fun x => returns (body x)) xs = true ->
  exists post,
    fst (for_each body (xs ++ y :: zs))
    = (List.concat (map (fun x => fst (body x)) xs) ++ fst (body y) ++ post)%list.
Proof.
  induction xs as [ | x xs IH]; intros Hall.
  - cbn [app for_each List.concat map]. rewrite fst_bind. eexists. reflexivity.
  - cbn [forallb] in Hall. apply andb_true_iff in Hall as [Hx Hxs].
    destruct (IH Hxs) as [post Hpost]. exists post.
    cbn [app for_each List.concat map]. rewrite fst_bind.
    unfold returns in Hx. destruct (snd (body x)); [ | discriminate Hx ].
    rewrite Hpost. now rewrite <- app_assoc.
Qed.

Lemma forallb_pointwise (A : Type) (f g : A -> bool) (xs : list A) :
  (forall x, f x = g x) -> forallb f xs = forallb g xs.
Proof.
  intros Hfg. induction xs as [ | x xs IH]; [ reflexivity | ].
  cbn. now rewrite Hfg, IH.
Qed.

Section Formatter.
Context {B : Builtins}.

Lemma returns_display_options (options : list value) :
  forall i, returns (display_options i options) = forallb is_dict options.
Proof.
  induction options as [ | option rest IH]; intros i; [ reflexivity | ].
  cbn [display_options forallb]. destruct option; try reflexivity.
  rewrite returns_bind. cbn [eval snd get_default].
  destruct (assoc "text" kvs); rewrite returns_bind; cbn [eval snd];
    destruct (assoc "id" kvs); rewrite returns_bind; cbn [print snd]; apply IH.
Qed.

Lemma returns_display_options_of (options : value) :
  returns (display_options_of options)
  = match options with
    | VList items => forallb is_dict items
    | _ => negb (truthy options)
    end.
Proof.
  unfold display_options_of.
  destruct options as [ | b | z | m e | s | items | kvs ]; cbn [truthy negb].
  - reflexivity.
  - destruct b; reflexivity.
  - destruct (z =? 0); reflexivity.
  - destruct (m =? 0); reflexivity.
  - destruct s as [ | c s]; [ reflexivity | ].
    cbn [String.length Nat.eqb negb]. rewrite !returns_bind. cbn [print eval snd py_iter].
    rewrite returns_display_options. reflexivity.
  - destruct items as [ | x items]; [ reflexivity | ].
    rewrite !returns_bind. cbn [print eval snd py_iter].
    apply returns_display_options.
  - destruct kvs as [ | [k v] kvs]; [ reflexivity | ].
    rewrite !returns_bind. cbn [print eval snd py_iter].
    rewrite returns_display_options. reflexivity.
Qed.

(** The date of a dict: the parsed date, the raw str where it does not
    parse, ['Unknown'] where the key is missing, and an [AttributeError]
    where the entry is not a str. *)
Lemma formatted_date_dict (kvs : list (string * value)) :
  formatted_date (VDict kvs)
  = match assoc "created_at" kvs with
    | None => Returned (VStr "Unknown")
    | Some (VStr s) =>
        match fromisoformat (replace s "Z" "+00:00") with
        | Some created_at => Returned (VStr (strftime created_at "%Y-%m-%d %H:%M:%S"))
        | None => Returned (VStr s)
        end
    | Some _ => Raised AttributeError
    end.
Proof.
  unfold formatted_date. cbn [subscript get_default].
  destruct (assoc "created_at" kvs) as [ [ | b | z | m e | s | items | kvs' ] | ];
    try reflexivity.
  cbn [py_replace]. destruct (fromisoformat (replace s "Z" "+00:00")); reflexivity.
Qed.

(** What [display_poll] prints for a dict whose date can be computed. *)
Lemma display_poll_dict (kvs : list (string * value)) (date : value) :
  formatted_date (VDict kvs) = Returned date ->
  display_poll (VDict kvs)
  = (([(nl ++ "🗳️  Poll ID: " ++ py_str (field kvs "id" "N/A"))%string;
       ("❓ Question: " ++ py_str (field kvs "question" "N/A"))%string;
       ("👤 Owner ID: " ++ py_str (field kvs "owner_id" "N/A"))%string;
       ("📅 Created: " ++ py_str date)%string]
      ++ fst (display_options_of
                (match assoc "options" kvs with Some v => v | None => VList [] end))
      ++ (if returns (display_options_of
                        (match assoc "options" kvs with Some v => v | None => VList [] end))
          then [str_mul "-" 40] else []))%list,
     match snd (display_options_of
                  (match assoc "options" kvs with Some v => v | None => VList [] end)) with
     | Returned _ => Returned tt
     | Raised e => Raised e
     end).
Proof.
  intros Hdate. unfold display_poll, field. rewrite Hdate. cbn [get_default].
  destruct (assoc "id" kvs), (assoc "question" kvs), (assoc "owner_id" kvs),
    (assoc "options" kvs) as [options | ];
    unfold returns; cbv [bind eval print];
    match goal with
    | |- context [display_options_of ?o] =>
        destruct (display_options_of o) as [out [u | e]]
    end; cbn [app fst snd]; rewrite ?app_nil_r; reflexivity.
Qed.

Lemma returns_display_poll_dict (kvs : list (string * value)) (date : value) :
  formatted_date (VDict kvs) = Returned date ->
  returns (display_poll (VDict kvs))
  = match assoc "options" kvs with
    | None => true
    | Some (VList options) => forallb is_dict options
    | Some options => negb (truthy options)
    end.
Proof.
  intros Hdate. rewrite (display_poll_dict kvs date Hdate). unfold returns at 1. cbn [snd].
  transitivity (returns (display_options_of
                           (match assoc "options" kvs with Some v => v | None => VList [] end))).
  { unfold returns. now destruct (snd (display_options_of _)). }
  rewrite returns_display_options_of.
  destruct (assoc "options" kvs) as [ [ | | | | | | ] | ]; reflexivity.
Qed.

Lemma returns_display_poll (poll : value) : returns (display_poll poll) = renderable poll.
Proof.
  destruct poll as [ | b | z | m e | s | items | kvs ]; try reflexivity.
  pose proof (formatted_date_dict kvs) as Hdate. unfold renderable.
  destruct (assoc "created_at" kvs) as [ [ | b | z | m e | s | items | kvs' ] | ];
    try (unfold display_poll; rewrite returns_bind, Hdate; reflexivity).
  - destruct (fromisoformat (replace s "Z" "+00:00"));
      exact (returns_display_poll_dict kvs _ Hdate).
  - exact (returns_display_poll_dict kvs _ Hdate).
Qed.

Lemma renderable_date (kvs : list (string * value)) :
  renderable (VDict kvs) = true ->
  exists date,
    formatted_date (VDict kvs) = Returned date /\
    (assoc "created_at" kvs = None -> date = VStr "Unknown").
Proof.
  intros Hr. rewrite formatted_date_dict. unfold renderable in Hr.
  destruct (assoc "created_at" kvs) as [ [ | b | z | m e | s | items | kvs' ] | ];
    try discriminate Hr.
  - destruct (fromisoformat (replace s "Z" "+00:00"));
      eexists; (split; [ reflexivity | discriminate ]).
  - eexists; split; reflexivity.
Qed.

Lemma display_polls_nonempty (polls_data : list value) :
  polls_data <> [] ->
  display_polls polls_data
  = (print (nl ++ "📊 Displaying " ++ str_of_int (Z.of_nat (List.length polls_data))
               ++ " polls:") ;;
     print (str_mul "=" 60) ;;
     for_each display_poll polls_data)%io.
Proof. destruct polls_data; [ contradiction | reflexivity ]. Qed.

Lemma returns_display_polls (polls_data : list value) :
  returns (display_polls polls_data) = forallb renderable polls_data.
Proof.
  destruct polls_data as [ | poll rest]; [ reflexivity | ].
  unfold display_polls. rewrite !returns_bind. cbn [print snd].
  rewrite returns_for_each. apply forallb_pointwise. intros p. apply returns_display_poll.
Qed.

(** C7, as the code has it. On the empty list [display_polls] prints the
    one notice and nothing else.  On a list of records it raises nothing
    exactly when every record is a dict whose [created_at], if present, is
    a str and whose [options], if present, is a list of dicts (or counts as
    false).  For such a record every missing field is replaced: ['N/A']
    for [id], [question] and [owner_id], ['Unknown'] for [created_at], the
    "Options: None" line for [options], and ['N/A'] for the [text] and [id]
    of an option. *)
Theorem display_polls_returns_on_records (polls_data : list value) :
  display_polls [] = (["📭 No polls to display"], Returned tt) /\
  returns (display_polls polls_data) = forallb renderable polls_data /\
  (forall kvs, renderable (VDict kvs) = true ->
     (assoc "id" kvs = None ->
      nth_error (fst (display_poll (VDict kvs))) 0 = Some (nl ++ "🗳️  Poll ID: N/A")) /\
     (assoc "question" kvs = None ->
      nth_error (fst (display_poll (VDict kvs))) 1 = Some "❓ Question: N/A") /\
     (assoc "owner_id" kvs = None ->
      nth_error (fst (display_poll (VDict kvs))) 2 = Some "👤 Owner ID: N/A") /\
     (assoc "created_at" kvs = None ->
      nth_error (fst (display_poll (VDict kvs))) 3 = Some "📅 Created: Unknown") /\
     (assoc "options" kvs = None ->
      nth_error (fst (display_poll (VDict kvs))) 4 = Some "📝 Options: None")) /\
  (forall i kvs rest, assoc "text" kvs = None -> assoc "id" kvs = None ->
     nth_error (fst (display_options i (VDict kvs :: rest))) 0
     = Some ("   " ++ str_of_int i ++ ". N/A (ID: N/A)")).
Proof.
  split; [ reflexivity | ]. split; [ apply returns_display_polls | ]. split.
  - intros kvs Hr. destruct (renderable_date kvs Hr) as (date & Hdate & Hunknown).
    rewrite (display_poll_dict kvs date Hdate). cbn [fst]. unfold field.
    repeat split; intros Hnone.
    + rewrite Hnone. reflexivity.
    + rewrite Hnone. reflexivity.
    + rewrite Hnone. reflexivity.
    + rewrite (Hunknown Hnone). reflexivity.
    + rewrite Hnone. reflexivity.
  - intros i kvs rest Htext Hid. cbn [display_options get_default].
    rewrite Htext, Hid. cbv [bind eval print].
    destruct (display_options (i + 1) rest). reflexivity.
Qed.

(** C8. A record whose [created_at] is a str that does not parse as a
    timestamp is rendered with that str as it is: computing the date raises
    nothing and the "Created" line of the record carries the raw str.  A
    record of the schema whose [options] is the empty list is rendered,
    without an exception, with the "Options: None" line in place of the
    options.  The lines of a record are part of what [display_polls] prints
    for any list in which the records before it are rendered. *)
Theorem display_polls_fallbacks (before after : list value) (kvs : list (string * value)) :
  forallb renderable before = true ->
  (exists post,
     fst (display_polls (before ++ VDict kvs :: after))
     = ([(nl ++ "📊 Displaying "
            ++ str_of_int (Z.of_nat (List.length (before ++ VDict kvs :: after)%list))
            ++ " polls:")%string;
         str_mul "=" 60]
        ++ List.concat (map (fun poll => fst (display_poll poll)) before)
        ++ fst (display_poll (VDict kvs)) ++ post)%list) /\
  (forall s, assoc "created_at" kvs = Some (VStr s) ->
     fromisoformat (replace s "Z" "+00:00") = None ->
     formatted_date (VDict kvs) = Returned (VStr s) /\
     nth_error (fst (display_poll (VDict kvs))) 3 = Some ("📅 Created: " ++ s)) /\
  (assoc "options" kvs = Some (VList []) -> renderable (VDict kvs) = true ->
     snd (display_poll (VDict kvs)) = Returned tt /\
     skipn 4 (fst (display_poll (VDict kvs))) = ["📝 Options: None"; str_mul "-" 40]).
Proof.
  intros Hbefore. split; [ | split ].
  - destruct (fst_for_each _ display_poll before (VDict kvs) after) as [post Hpost].
    { rewrite <- Hbefore. apply forallb_pointwise. intros p. apply returns_display_poll. }
    exists post. rewrite display_polls_nonempty by (destruct before; discriminate).
    rewrite !fst_bind. cbn [print fst snd]. rewrite Hpost. reflexivity.
  - intros s Hcreated Hparse.
    assert (Hdate : formatted_date (VDict kvs) = Returned (VStr s)).
    { rewrite formatted_date_dict, Hcreated, Hparse. reflexivity. }
    split; [ exact Hdate | ].
    rewrite (display_poll_dict kvs _ Hdate). reflexivity.
  - intros Hoptions Hr. destruct (renderable_date kvs Hr) as (date & Hdate & _).
    rewrite (display_poll_dict kvs date Hdate), Hoptions. split; reflexivity.
Qed.

End Formatter.

(** The claim C7 fails on a field of the wrong type: a [created_at] that
    is null has no [replace], and the exception is not among the ones the
    [try] catches. *)
Lemma display_polls_raises_on_null_date :
  @display_polls sample_builtins
    [VDict [("id", VInt 1); ("question", VStr "Tabs or spaces?");
            ("created_at", VNone); ("owner_id", VInt 101); ("options", VList [])]]
  = ([nl ++ "📊 Displaying 1 polls:"; str_mul "=" 60], Raised AttributeError).
Proof. reflexivity. Qed.

(** The witness of C7: a record with no field at all. *)
Lemma display_polls_returns_on_records_witness :
  renderable (VDict []) = true /\
  @display_polls sample_builtins [] = (["📭 No polls to display"], Returned tt) /\
  nth_error (fst (@display_poll sample_builtins (VDict []))) 3 = Some "📅 Created: Unknown".
Proof.
  assert (Hr : renderable (VDict []) = true) by reflexivity.
  split; [ exact Hr | ].
  destruct (@display_polls_returns_on_records sample_builtins [VDict []])
    as (Hempty & _ & Hfields & _).
  split; [ exact Hempty | ].
  destruct (Hfields [] Hr) as (_ & _ & _ & Hcreated & _).
  exact (Hcreated eq_refl).
Defined.

(** The witness of C8: a record dated "yesterday", with no options. *)
Lemma display_polls_fallbacks_witness :
  @fromisoformat sample_builtins (replace "yesterday" "Z" "+00:00") = None /\
  nth_error (fst (@display_poll sample_builtins
                    (VDict [("created_at", VStr "yesterday"); ("options", VList [])]))) 3
  = Some "📅 Created: yesterday" /\
  skipn 4 (fst (@display_poll sample_builtins
                  (VDict [("created_at", VStr "yesterday"); ("options", VList [])])))
  = ["📝 Options: None"; str_mul "-" 40].
Proof.
  assert (Hparse : @fromisoformat sample_builtins (replace "yesterday" "Z" "+00:00") = None)
    by reflexivity.
  split; [ exact Hparse | ].
  destruct (@display_polls_fallbacks sample_builtins [] []
              [("created_at", VStr "yesterday"); ("options", VList [])] eq_refl)
    as (_ & Hraw & Hnone).
  split.
  - exact (proj2 (Hraw "yesterday" eq_refl Hparse)).
  - exact (proj2 (Hnone eq_refl eq_refl)).
Defined.

(** ** Further properties of the transport wrappers *)

Section WrappersMore.
Context {R : Requests} {B : Builtins}.

(** [fetch_polls] reports success exactly when a response with status 200
    arrives whose body has a length (a list, a dict or a str), and then
    [data] is that body. *)
Theorem fetch_polls_success_iff (w w' : World) (skip limit : Z) (base_url : string)
    (o : http_outcome) :
  send w (GET (base_url ++ "/polls") skip limit) = (o, w') ->
  ((exists r, fetch_polls w skip limit base_url = (Returned r, w') /\ succeeded r = true)
   <-> exists body n, o = Response 200 (Some body) /\ py_len body = Returned n) /\
  (forall r, fetch_polls w skip limit base_url = (Returned r, w') -> succeeded r = true ->
     exists body, o = Response 200 (Some body) /\ subscript r "data" = Returned body).
Proof.
  intros Hsend. unfold fetch_polls. rewrite Hsend. split; [ split | ].
  - intros (r & Hrun & Hok).
    destruct o as [ | e | status [body | ] ];
      try (injection Hrun as <-; discriminate Hok).
    destruct (status =? 200) eqn:E200.
    + apply Z.eqb_eq in E200. subst status.
      destruct (py_len body) as [n | e] eqn:Hlen; [ | discriminate Hrun ].
      exists body, n. auto.
    + injection Hrun as <-. discriminate Hok.
  - intros (body & n & -> & Hlen). cbn. rewrite Hlen. eexists. split; reflexivity.
  - intros r Hrun Hok.
    destruct o as [ | e | status [body | ] ];
      try (injection Hrun as <-; discriminate Hok).
    destruct (status =? 200) eqn:E200.
    + apply Z.eqb_eq in E200. subst status.
      destruct (py_len body) as [n | e]; [ | discriminate Hrun ].
      injection Hrun as <-. exists body. split; reflexivity.
    + injection Hrun as <-. discriminate Hok.
Qed.

(** A response with status 200 whose body is valid JSON without a
    length (null, a boolean or a number) makes [fetch_polls] raise: the
    [TypeError] of [len(response_data)] is none of the exceptions the
    [except] clauses catch, and no failure value is returned. *)
Theorem fetch_polls_unsized_body_raises (w w' : World) (skip limit : Z)
    (base_url : string) (body : value) :
  send w (GET (base_url ++ "/polls") skip limit) = (Response 200 (Some body), w') ->
  match body with
  | VNone | VBool _ | VInt _ | VFloat _ _ => True
  | _ => False
  end ->
  fetch_polls w skip limit base_url = (Raised TypeError, w').
Proof.
  intros Hsend Hbody. unfold fetch_polls. rewrite Hsend.
  destruct body; try contradiction; reflexivity.
Qed.

(** What the [except] clauses of [register_user] print is what they
    return: for a connection error, a body that is not JSON and any other
    request exception, exactly one line is printed, and it is the [error]
    of the returned failure, which has no [status_code]. *)
Theorem register_user_prints_its_error (w w' : World) (username password base_url : string)
    (o : http_outcome) :
  send w (POST (base_url ++ "/register") username password) = (o, w') ->
  match o with Response _ (Some _) => False | _ => True end ->
  exists error_msg,
    register_user w username password base_url
    = (([error_msg], Returned (VDict [("success", VBool false); ("error", VStr error_msg)])), w') /\
    error_msg = match o with
                | ConnectionError =>
                    "❌ Could not connect to the API at " ++ base_url
                    ++ ". Make sure the server is running."
                | RequestException e => "❌ Request failed: " ++ e
                | Response _ _ => "❌ Invalid JSON response from server"
                end.
Proof.
  intros Hsend Ho. unfold register_user. rewrite Hsend.
  destruct o as [ | e | status [body | ] ]; try contradiction;
    eexists; split; reflexivity.
Qed.

(** The two shapes of what [fetch_polls] returns.  A success has
    [status_code] 200, [data] and [pagination] and no [error]; everything
    else has a false [success] and an [error], and neither [data] nor
    [pagination]. *)
Theorem fetch_polls_result_shape (w w' : World) (skip limit : Z) (base_url : string)
    (r : value) :
  fetch_polls w skip limit base_url = (Returned r, w') ->
  (get r "success" = Returned (VBool true) /\
   subscript r "status_code" = Returned (VInt 200) /\
   (exists data, subscript r "data" = Returned data) /\
   (exists n, subscript r "pagination"
              = Returned (VDict [("skip", VInt skip); ("limit", VInt limit);
                                 ("returned_count", VInt n)])) /\
   subscript r "error" = Raised KeyError)
  \/
  (get r "success" = Returned (VBool false) /\
   (exists error, subscript r "error" = Returned error) /\
   subscript r "data" = Raised KeyError /\
   subscript r "pagination" = Raised KeyError).
Proof.
  unfold fetch_polls.
  destruct (send w (GET (base_url ++ "/polls") skip limit)) as [o w1].
  destruct o as [ | e | status [body | ] ];
    try (intros H; injection H as <- _; right; cbn; repeat split; eexists; reflexivity).
  destruct (status =? 200) eqn:E200.
  - apply Z.eqb_eq in E200. subst status.
    destruct (py_len body) as [n | e]; intros H; [ | discriminate H ].
    injection H as <- _. left. cbn. repeat split; eexists; reflexivity.
  - intros H; injection H as <- _; right; cbn; repeat split; eexists; reflexivity.
Qed.

(** Neither wrapper retries: whatever the outcome, an exception included,
    the server has seen exactly the one request. *)
Theorem wrappers_send_once (w : World) (skip limit : Z) (username password base_url : string) :
  snd (fetch_polls w skip limit base_url)
  = snd (send w (GET (base_url ++ "/polls") skip limit)) /\
  snd (register_user w username password base_url)
  = snd (send w (POST (base_url ++ "/register") username password)).
Proof.
  split.
  - unfold fetch_polls.
    destruct (send w (GET (base_url ++ "/polls") skip limit)) as [o w1].
    destruct o as [ | e | status [body | ] ]; try reflexivity.
    destruct (status =? 200); [ | reflexivity ].
    destruct (py_len body); reflexivity.
  - unfold register_user.
    destruct (send w (POST (base_url ++ "/register") username password)) as [o w1].
    destruct o as [ | e | status [body | ] ]; try reflexivity.
    destruct (status =? 200); [ reflexivity | ].
    destruct (status =? 400); reflexivity.
Qed.

(** A 200 response whose body is an object registers the user whether or
    not the object has an [id]: two lines are printed, the second with the
    [id] of the body, or with [None] where it has none. *)
Theorem register_user_success_lines (w w' : World) (username password base_url : string)
    (kvs : list (string * value)) :
  send w (POST (base_url ++ "/register") username password)
  = (Response 200 (Some (VDict kvs)), w') ->
  register_user w username password base_url
  = ((["✅ User '" ++ username ++ "' registered successfully!";
       "User ID: " ++ py_str (match assoc "id" kvs with Some id => id | None => VNone end)],
      Returned (VDict [("success", VBool true);
                       ("status_code", VInt 200);
                       ("data", VDict kvs)])), w').
Proof.
  intros Hsend. unfold register_user. rewrite Hsend. cbn.
  destruct (assoc "id" kvs); reflexivity.
Qed.

End WrappersMore.

(** ** Further properties of the pagination loop *)

Section AggregatorMore.
Context {R : Requests}.
Variable base_url : string.
Variable page_size : Z.

(** A property of the loop state that every pass keeps holds of the state
    the final result is built from. *)
Lemma loop_invariant (max_polls : option Z) (P : loop_state -> Prop) :
  (forall w st w' st', P st ->
     loop_body base_url page_size max_polls w st = Continue w' st' \/
     loop_body base_url page_size max_polls w st = Break w' st' -> P st') ->
  forall fuel w st r w',
    fetch_all_loop base_url page_size max_polls fuel w st = Some (Returned r, w') ->
    succeeded r = true ->
    P st ->
    exists st', P st' /\ finish page_size st' = Returned r.
Proof.
  intros Hkeep. induction fuel as [ | fuel IH]; intros w st r w' Hrun Hok HP;
    [ discriminate Hrun | ].
  cbn in Hrun. pose proof (loop_body_cases base_url page_size max_polls w st) as H.
  destruct (loop_body base_url page_size max_polls w st)
    as [w1 st1 | w1 st1 | w1 r1 | w1 e] eqn:Hstep.
  - eapply IH; [ exact Hrun | exact Hok | ]. eapply Hkeep; [ exact HP | left; exact Hstep ].
  - exists st1. split; [ eapply Hkeep; [ exact HP | right; exact Hstep ] | ].
    now injection Hrun as -> _.
  - destruct H as (limit & _ & _ & Hfail). injection Hrun as <- _.
    rewrite Hok in Hfail. discriminate Hfail.
  - discriminate Hrun.
Qed.

(** The body of a successful result is the body the server sent. *)
Lemma fetch_polls_success_body (w w' : World) (skip limit : Z) (r : value) :
  fetch_polls w skip limit base_url = (Returned r, w') ->
  succeeded r = true ->
  exists body,
    send w (GET (base_url ++ "/polls") skip limit) = (Response 200 (Some body), w') /\
    subscript r "data" = Returned body.
Proof.
  unfold fetch_polls. intros Hrun Hok.
  destruct (send w (GET (base_url ++ "/polls") skip limit)) as [o w1].
  destruct o as [ | e | status [body | ] ];
    try (injection Hrun as <- _; discriminate Hok).
  destruct (status =? 200) eqn:E200.
  - apply Z.eqb_eq in E200. subst status.
    destruct (py_len body) as [n | e]; [ | discriminate Hrun ].
    injection Hrun as <- <-. exists body. split; reflexivity.
  - injection Hrun as <- _. discriminate Hok.
Qed.

(** An exception that leaves [fetch_polls], at whatever page, leaves
    [fetch_all_polls] too: the loop has no handler of its own. *)
Theorem exception_is_propagated (max_polls : option Z) (w0 w w' : World)
    (st : loop_state) (limit : Z) (e : exn) :
  visits base_url page_size max_polls w0 initial w st ->
  current_limit page_size max_polls st = Some limit ->
  fetch_polls w (skip st) limit base_url = (Raised e, w') ->
  exists fuel0, forall fuel, (fuel0 <= fuel)%nat ->
    fetch_all_polls base_url page_size max_polls fuel w0 = Some (Raised e, w').
Proof.
  intros Hv Hlim Hf.
  assert (Hstep : fetch_all_loop base_url page_size max_polls 1 w st = Some (Raised e, w')).
  { cbn. unfold loop_body. rewrite Hlim, Hf. reflexivity. }
  destruct (visits_run base_url page_size max_polls _ _ _ _ Hv _ _ Hstep) as [k Hk].
  exists (k + 1)%nat. intros fuel Hle.
  replace fuel with ((k + 1) + (fuel - (k + 1)))%nat by lia.
  apply fuel_mono. exact Hk.
Qed.


(** A [max_polls] of 0 or less makes no request at all: the result is the
    empty success, and the server is as it was. *)
Theorem nonpositive_max_polls_makes_no_request (m : Z) (fuel : nat) (w : World) :
  m <= 0 ->
  page_size <> 0 ->
  fetch_all_polls base_url page_size (Some m) (S fuel) w
  = Some (Returned (VDict [("success", VBool true);
                           ("data", VList []);
                           ("total_count", VInt 0);
                           ("pagination_info",
                             VDict [("page_size", VInt page_size);
                                    ("total_requests", VInt 0)])]), w).
Proof.
  intros Hm Hp. unfold fetch_all_polls. cbn [fetch_all_loop].
  unfold loop_body, current_limit. cbn [total_fetched initial].
  replace (m - 0 <=? 0) with true by (symmetry; apply Z.leb_le; lia).
  unfold finish. replace (page_size =? 0) with false by (symmetry; apply Z.eqb_neq; lia).
  cbn [all_polls skip total_fetched initial].
  rewrite Z.div_0_l, Z.mod_0_l by exact Hp. reflexivity.
Qed.

(** The list a successful result carries has [total_count] items,
    whatever the server sent and however the loop was left. *)
Theorem total_count_is_data_length (max_polls : option Z) (fuel : nat)
    (w w' : World) (r : value) :
  fetch_all_polls base_url page_size max_polls fuel w = Some (Returned r, w') ->
  succeeded r = true ->
  exists items,
    subscript r "data" = Returned (VList items) /\
    subscript r "total_count" = Returned (VInt (Z.of_nat (List.length items))).
Proof.
  intros Hrun Hok.
  destruct (success_comes_from_finish base_url page_size max_polls
              fuel w initial r w' Hrun Hok (initial_agree)) as (st & [_ Ht] & Hfin).
  unfold finish in Hfin. destruct (page_size =? 0); [ discriminate Hfin | ].
  injection Hfin as <-. exists (all_polls st). cbn. rewrite Ht. split; reflexivity.
Qed.

(** Against a server that never sends more than it is asked for, the
    result of [fetch_all_polls] with [max_polls = M >= 0] has at most [M]
    polls, short pages and all. *)
Theorem honest_server_respects_max_polls (M : Z) (fuel : nat) (w w' : World) (r : value) :
  honours_limit R ->
  0 <= M ->
  fetch_all_polls base_url page_size (Some M) fuel w = Some (Returned r, w') ->
  succeeded r = true ->
  exists total,
    subscript r "total_count" = Returned (VInt total) /\ 0 <= total <= M.
Proof.
  intros Hhon HM Hrun Hok.
  destruct (loop_invariant (Some M)
              (fun st => 0 <= total_fetched st <= M)) with
      (fuel := fuel) (w := w) (st := initial) (r := r) (w' := w')
    as (st & Hst & Hfin); trivial.
  - intros w1 st1 w2 st2 Hst1 Hstep.
    pose proof (loop_body_cases base_url page_size (Some M) w1 st1) as H.
    assert (Hpage : forall limit r1 data items,
               current_limit page_size (Some M) st1 = Some limit ->
               fetch_polls w1 (skip st1) limit base_url = (Returned r1, w2) ->
               succeeded r1 = true ->
               subscript r1 "data" = Returned data ->
               py_iter data = Returned items ->
               0 <= total_fetched (advance st1 items) <= M).
    { intros limit r1 data items Hlim Hf Hok1 Hd Hi.
      destruct (fetch_polls_success_body _ _ _ _ _ Hf Hok1) as (body & Hsend & Hd').
      rewrite Hd in Hd'. injection Hd' as <-.
      pose proof (Hhon _ _ _ _ _ _ _ Hsend (py_iter_len _ _ Hi)) as Hle.
      unfold current_limit in Hlim.
      destruct (M - total_fetched st1 <=? 0); [ discriminate Hlim | ].
      injection Hlim as <-. cbn [total_fetched advance]. lia. }
    destruct Hstep as [Hstep | Hstep]; rewrite Hstep in H.
    + destruct H as (limit & r1 & data & items & Hlim & Hf & Hok1 & Hd & Hi & -> & _).
      eapply Hpage; eassumption.
    + destruct H as [(_ & _ & ->) | (limit & r1 & data & Hlim & Hf & Hok1 & Hd & H)];
        [ exact Hst1 | ].
      destruct H as [(_ & ->) | (items & Hi & -> & _)]; [ exact Hst1 | ].
      eapply Hpage; eassumption.
  - cbn. lia.
  - unfold finish in Hfin. destruct (page_size =? 0); [ discriminate Hfin | ].
    injection Hfin as <-. exists (total_fetched st). split; [ reflexivity | exact Hst ].
Qed.

Lemma loop_ends_below_max (M : Z) (fuel : nat) :
  forall w st, (Z.to_nat (M - total_fetched st) < fuel)%nat ->
  exists x, fetch_all_loop base_url page_size (Some M) fuel w st = Some x.
Proof.
  induction fuel as [ | fuel IH]; intros w st Hfuel; [ lia | ].
  cbn [fetch_all_loop].
  pose proof (loop_body_cases base_url page_size (Some M) w st) as H.
  destruct (loop_body base_url page_size (Some M) w st)
    as [w1 st1 | w1 st1 | w1 r1 | w1 e]; try (eexists; reflexivity).
  destruct H as (limit & r1 & data & items & Hlim & _ & _ & _ & _ & -> & Hne & _).
  apply IH. unfold current_limit in Hlim.
  destruct (M - total_fetched st <=? 0) eqn:Hrem; [ discriminate Hlim | ].
  apply Z.leb_gt in Hrem. cbn [total_fetched advance].
  destruct items; [ contradiction | cbn [List.length]; lia ].
Qed.

(** With [max_polls = M] the loop ends against every server, within
    [M + 1] passes: every pass that goes round again has fetched at least
    one poll. *)
Theorem max_polls_bounds_the_loop (M : Z) (fuel : nat) (w : World) :
  (Z.to_nat M < fuel)%nat ->
  exists x, fetch_all_polls base_url page_size (Some M) fuel w = Some x.
Proof.
  intros Hfuel. apply loop_ends_below_max. cbn [total_fetched initial].
  now rewrite Z.sub_0_r.
Qed.

(** Without [max_polls] nothing bounds the loop: against a server that
    fills every page it never ends, whatever the fuel. *)
Theorem full_pages_never_end (fuel : nat) (w : World) :
  always_full R ->
  fetch_all_polls base_url page_size None fuel w = None.
Proof.
  intros Hfull. unfold fetch_all_polls. generalize initial as st. revert w.
  induction fuel as [ | fuel IH]; intros w st; [ reflexivity | ].
  cbn [fetch_all_loop].
  destruct (Hfull w (base_url ++ "/polls") (skip st) page_size)
    as (items & w1 & Hsend & Hne & Hle).
  assert (Hf : fetch_polls w (skip st) page_size base_url
               = (Returned (VDict [("success", VBool true); ("status_code", VInt 200);
                                   ("data", VList items);
                                   ("pagination",
                                     VDict [("skip", VInt (skip st));
                                            ("limit", VInt page_size);
                                            ("returned_count",
                                              VInt (Z.of_nat (List.length items)))])]), w1)).
  { unfold fetch_polls. rewrite Hsend. reflexivity. }
  rewrite (loop_body_page base_url page_size None w st page_size w1 _ items _ eq_refl Hf).
  destruct items as [ | x items]; [ contradiction | ].
  cbn [List.length Nat.eqb].
  replace (Z.of_nat (S (List.length items)) <? page_size) with false
    by (symmetry; apply Z.ltb_ge; exact Hle).
  apply IH.
Qed.

(** A page shorter than the limit ends the loop at once, whether or not
    the server has more: the result is what was fetched up to and including
    that page.  Here for the first page. *)
Theorem short_first_page_ends_the_loop (max_polls : option Z) (fuel : nat)
    (w w1 : World) (limit : Z) (items : list value) :
  current_limit page_size max_polls initial = Some limit ->
  send w (GET (base_url ++ "/polls") 0 limit) = (Response 200 (Some (VList items)), w1) ->
  items <> [] ->
  Z.of_nat (List.length items) < limit ->
  page_size <> 0 ->
  exists total_requests,
    fetch_all_polls base_url page_size max_polls (S fuel) w
    = Some (Returned (VDict [("success", VBool true);
                             ("data", VList items);
                             ("total_count", VInt (Z.of_nat (List.length items)));
                             ("pagination_info",
                               VDict [("page_size", VInt page_size);
                                      ("total_requests", VInt total_requests)])]), w1).
Proof.
  intros Hlim Hsend Hne Hshort Hp.
  assert (Hf : fetch_polls w (skip initial) limit base_url
               = (Returned (VDict [("success", VBool true); ("status_code", VInt 200);
                                   ("data", VList items);
                                   ("pagination",
                                     VDict [("skip", VInt 0);
                                            ("limit", VInt limit);
                                            ("returned_count",
                                              VInt (Z.of_nat (List.length items)))])]), w1)).
  { unfold fetch_polls. cbn [skip initial]. rewrite Hsend. reflexivity. }
  unfold fetch_all_polls. cbn [fetch_all_loop].
  rewrite (loop_body_page base_url page_size max_polls w initial limit w1 _ items _ Hlim Hf).
  destruct items as [ | x items]; [ contradiction | ].
  cbn [List.length Nat.eqb].
  replace (Z.of_nat (S (List.length items)) <? limit) with true
    by (symmetry; apply Z.ltb_lt; exact Hshort).
  unfold finish. replace (page_size =? 0) with false by (symmetry; apply Z.eqb_neq; lia).
  eexists. reflexivity.
Qed.

End AggregatorMore.

(** ** Requests made against a data source that holds [records] *)

Lemma poll_source_honours_limit (records : list value) :
  honours_limit (poll_source records).
Proof.
  intros w w' url skip limit body n Hsend Hlen. cbn in Hsend.
  injection Hsend as <- _. cbn in Hlen. injection Hlen as <-.
  unfold page. rewrite length_firstn. lia.
Qed.

Lemma endless_source_always_full : always_full endless_source.
Proof.
  intros w url skip limit. do 2 eexists. split; [ reflexivity | ].
  split.
  - destruct (Z.to_nat (Z.max limit 1)) eqn:E; [ lia | discriminate ].
  - rewrite repeat_length. lia.
Qed.

Section SourceRequests.
Variable records : list value.
Variable base_url : string.
Variable page_size : Z.
Hypothesis page_size_pos : 1 <= page_size.

Local Abbreviation N := (List.length records).

Lemma source_loop_requests (fuel : nat) :
  forall k n, (k <= N)%nat -> (N - k < fuel)%nat ->
  @fetch_all_loop (poll_source records) base_url page_size None fuel n (fetched records k)
  = Some (finish page_size (fetched records N),
          (n + (N - k) / Z.to_nat page_size + 1)%nat).
Proof.
  induction fuel as [ | fuel IH]; intros k n Hk Hfuel; [ lia | ].
  cbn [fetch_all_loop].
  rewrite (source_pass records base_url page_size None n k page_size eq_refl page_size_pos Hk).
  cbn zeta. set (l := Z.to_nat page_size). assert (Hl : (1 <= l)%nat) by (unfold l; lia).
  set (m := Nat.min l (N - k)).
  destruct (m =? 0)%nat eqn:Hm0.
  - apply Nat.eqb_eq in Hm0. replace (N - k)%nat with 0%nat by lia.
    replace k with N by lia. rewrite Nat.Div0.div_0_l. do 2 f_equal. lia.
  - apply Nat.eqb_neq in Hm0.
    destruct (m <? l)%nat eqn:Hlt.
    + apply Nat.ltb_lt in Hlt. replace (k + m)%nat with N by lia.
      rewrite Nat.div_small by lia. do 2 f_equal. lia.
    + apply Nat.ltb_ge in Hlt. rewrite IH by lia. do 2 f_equal.
      assert (Hdiv : ((N - k) / l = (N - (k + m)) / l + 1)%nat).
      { replace (N - k)%nat with ((N - (k + m)) + 1 * l)%nat at 1 by lia.
        apply Nat.div_add. lia. }
      change (Z.to_nat page_size) with l. rewrite Hdiv.
      generalize ((N - (k + m)) / l)%nat. intros q.
      change (S n + q + 1 = n + (q + 1) + 1)%nat. lia.
Qed.

(** Against the data source with [N] records, [fetch_all_polls] without
    [max_polls] makes [floor(N / page_size) + 1] requests: the last one is
    the short or empty page that ends the loop.  The [total_requests] it
    reports counts one request less whenever the page size divides [N]. *)
Theorem source_request_count (fuel n : nat) :
  (N < fuel)%nat ->
  exists made,
    option_map snd (@fetch_all_polls (poll_source records) base_url page_size None fuel n)
    = Some (n + made)%nat /\
    Z.of_nat made = Z.of_nat N / page_size + 1 /\
    Z.of_nat made
    = ceil_div (Z.of_nat N) page_size
      + (if Z.of_nat N mod page_size =? 0 then 1 else 0).
Proof.
  intros Hfuel. exists (N / Z.to_nat page_size + 1)%nat.
  unfold fetch_all_polls. change initial with (fetched records 0).
  rewrite (source_loop_requests fuel 0 n ltac:(lia) ltac:(lia)).
  cbn [option_map snd]. rewrite Nat.sub_0_r.
  assert (Hmade : Z.of_nat (N / Z.to_nat page_size + 1) = Z.of_nat N / page_size + 1).
  { rewrite Nat2Z.inj_add, Nat2Z.inj_div, Z2Nat.id by lia. reflexivity. }
  split; [ f_equal; lia | ]. split; [ exact Hmade | ].
  rewrite Hmade, <- (ceil_div_floor _ _ page_size_pos).
  pose proof (Z.mod_pos_bound (Z.of_nat N) page_size ltac:(lia)) as Hmod.
  destruct (Z.of_nat N mod page_size =? 0) eqn:E.
  - apply Z.eqb_eq in E. rewrite E. cbn. lia.
  - apply Z.eqb_neq in E.
    replace (Z.of_nat N mod page_size >? 0) with true
      by (symmetry; apply Z.gtb_lt; lia).
    lia.
Qed.

End SourceRequests.

(** ** Further properties of the formatter *)

(** A loop whose body raises at [y], after passes that returned, has
    printed the passes before [y] and what [y] printed before raising, and
    nothing of what follows. *)
Lemma for_each_raises (A : Type) (body : A -> io unit) (xs : list A) (y : A)
    (zs : list A) (e : exn) :
  forallb (fun x => returns (body x)) xs = true ->
  snd (body y) = Raised e ->
  for_each body (xs ++ y :: zs)
  = ((List.concat (map (fun x => fst (body x)) xs) ++ fst (body y))%list, Raised e).
Proof.
  intros Hall Hy. induction xs as [ | x xs IH].
  - cbn [app for_each List.concat map]. unfold bind.
    destruct (body y) as [out r]. cbn in Hy. subst r. reflexivity.
  - cbn [forallb] in Hall. apply andb_true_iff in Hall as [Hx Hxs].
    cbn [app for_each List.concat map]. rewrite (IH Hxs). unfold bind, returns in *.
    destruct (body x) as [out [u | e']]; [ | discriminate Hx ].
    cbn [fst]. now rewrite app_assoc.
Qed.

Section FormatterMore.
Context {B : Builtins}.

Lemma display_options_dict (i : Z) (kvs : list (string * value)) (rest : list value) :
  display_options i (VDict kvs :: rest)
  = ((("   " ++ str_of_int i ++ ". " ++ py_str (field kvs "text" "N/A")
        ++ " (ID: " ++ py_str (field kvs "id" "N/A") ++ ")")%string
      :: fst (display_options (i + 1) rest))%list,
     snd (display_options (i + 1) rest)).
Proof.
  cbn [display_options get_default]. unfold field.
  destruct (assoc "text" kvs), (assoc "id" kvs); cbv [bind eval print];
    destruct (display_options (i + 1) rest); reflexivity.
Qed.

Lemma display_options_lines (options : list value) :
  forall (i : Z) (k : nat) (kvs : list (string * value)),
    forallb is_dict (firstn k options) = true ->
    nth_error options k = Some (VDict kvs) ->
    nth_error (fst (display_options i options)) k
    = Some ("   " ++ str_of_int (i + Z.of_nat k) ++ ". " ++ py_str (field kvs "text" "N/A")
            ++ " (ID: " ++ py_str (field kvs "id" "N/A") ++ ")").
Proof.
  induction options as [ | option rest IH]; intros i k kvs Hdicts Hk.
  - destruct k; discriminate Hk.
  - destruct k as [ | k].
    + cbn in Hk. injection Hk as ->. rewrite display_options_dict.
      cbn [nth_error fst]. now rewrite Z.add_0_r.
    + cbn [firstn forallb] in Hdicts. apply andb_true_iff in Hdicts as [Hd Hrest].
      destruct option; try discriminate Hd. rewrite display_options_dict.
      cbn [nth_error fst] in *. rewrite (IH (i + 1) k kvs Hrest Hk).
      do 3 f_equal. f_equal. lia.
Qed.

Lemma display_options_length (options : list value) :
  forall i, forallb is_dict options = true ->
  List.length (fst (display_options i options)) = List.length options.
Proof.
  induction options as [ | option rest IH]; intros i Hdicts; [ reflexivity | ].
  cbn [forallb] in Hdicts. apply andb_true_iff in Hdicts as [Hd Hrest].
  destruct option; try discriminate Hd. rewrite display_options_dict.
  cbn [fst List.length]. now rewrite IH.
Qed.

(** The options of a record are printed one per line, in their order and
    numbered from 1, between the line "Options:" and the closing rule;
    a record with [n] options takes [n + 6] lines. *)
Theorem options_are_numbered_from_one (kvs : list (string * value)) (options : list value) :
  renderable (VDict kvs) = true ->
  assoc "options" kvs = Some (VList options) ->
  options <> [] ->
  nth_error (fst (display_poll (VDict kvs))) 4 = Some "📝 Options:" /\
  (forall k option,
     nth_error options k = Some (VDict option) ->
     nth_error (fst (display_poll (VDict kvs))) (5 + k)
     = Some ("   " ++ str_of_int (1 + Z.of_nat k) ++ ". "
             ++ py_str (field option "text" "N/A")
             ++ " (ID: " ++ py_str (field option "id" "N/A") ++ ")")) /\
  nth_error (fst (display_poll (VDict kvs))) (5 + List.length options)
  = Some (str_mul "-" 40) /\
  List.length (fst (display_poll (VDict kvs))) = (6 + List.length options)%nat.
Proof.
  intros Hr Hoptions Hne.
  destruct (renderable_date kvs Hr) as (date & Hdate & _).
  assert (Hdicts : forallb is_dict options = true).
  { unfold renderable in Hr. rewrite Hoptions in Hr.
    apply andb_true_iff in Hr as [_ Hr]. exact Hr. }
  assert (Hblock : forall i : Z, returns (display_options i options) = true).
  { intros i. now rewrite returns_display_options. }
  rewrite (display_poll_dict kvs date Hdate), Hoptions. cbn [fst].
  assert (Hof : display_options_of (VList options)
                = (("📝 Options:" :: fst (display_options 1 options))%list,
                   snd (display_options 1 options))).
  { unfold display_options_of. destruct options as [ | x rest]; [ contradiction | ].
    cbn [truthy]. cbv [bind eval print py_iter].
    destruct (display_options 1 (x :: rest)). reflexivity. }
  rewrite Hof. unfold returns at 1 2 3 4. cbn [fst snd].
  specialize (Hblock 1). unfold returns in Hblock.
  destruct (snd (display_options 1 options)) as [u | e]; [ | discriminate Hblock ].
  pose proof (display_options_length options 1 Hdicts) as Hlen.
  cbn [app nth_error Nat.add]. repeat split.
  - intros k option Hk.
    rewrite nth_error_app1 by (rewrite Hlen; apply nth_error_Some; congruence).
    apply display_options_lines; [ | exact Hk ].
    clear - Hdicts. revert k. induction options as [ | x rest IH]; intros k.
    + now rewrite firstn_nil.
    + destruct k; [ reflexivity | ].
      cbn [forallb firstn] in *. apply andb_true_iff in Hdicts as [Hx Hrest].
      now rewrite Hx, IH.
  - rewrite nth_error_app2 by lia. rewrite Hlen, Nat.sub_diag. reflexivity.
  - cbn [List.length]. rewrite length_app, Hlen. cbn [List.length]. lia.
Qed.

(** A [created_at] that parses is shown reformatted: the str is parsed
    with every "Z" replaced by "+00:00" and printed in the format
    "%Y-%m-%d %H:%M:%S". *)
Theorem parsed_dates_are_reformatted (kvs : list (string * value)) (s : string)
    (created_at : datetime) :
  assoc "created_at" kvs = Some (VStr s) ->
  fromisoformat (replace s "Z" "+00:00") = Some created_at ->
  formatted_date (VDict kvs) = Returned (VStr (strftime created_at "%Y-%m-%d %H:%M:%S")) /\
  nth_error (fst (display_poll (VDict kvs))) 3
  = Some ("📅 Created: " ++ strftime created_at "%Y-%m-%d %H:%M:%S").
Proof.
  intros Hcreated Hparse.
  assert (Hdate : formatted_date (VDict kvs)
                  = Returned (VStr (strftime created_at "%Y-%m-%d %H:%M:%S"))).
  { rewrite formatted_date_dict, Hcreated, Hparse. reflexivity. }
  split; [ exact Hdate | ].
  rewrite (display_poll_dict kvs _ Hdate). reflexivity.
Qed.

(** [display_polls] stops at the first record it cannot render: the
    records before it are printed in full, then whatever the bad record
    printed before its exception, and nothing of the records after it,
    although the heading has counted them all. *)
Theorem display_polls_stops_at_first_bad_record (before after : list value) (bad : value) :
  forallb renderable before = true ->
  renderable bad = false ->
  exists e,
    display_polls (before ++ bad :: after)
    = (((nl ++ "📊 Displaying "
            ++ str_of_int (Z.of_nat (List.length before + 1 + List.length after))
            ++ " polls:")%string
        :: str_mul "=" 60
        :: List.concat (map (fun poll => fst (display_poll poll)) before)
           ++ fst (display_poll bad))%list,
       Raised e).
Proof.
  intros Hbefore Hbad.
  assert (Hraise : exists e, snd (display_poll bad) = Raised e).
  { rewrite <- returns_display_poll in Hbad. unfold returns in Hbad.
    destruct (snd (display_poll bad)) as [u | e]; [ discriminate Hbad | ].
    exists e. reflexivity. }
  destruct Hraise as [e He]. exists e.
  rewrite display_polls_nonempty by (destruct before; discriminate).
  rewrite (for_each_raises _ display_poll before bad after e); [ | | exact He ].
  - rewrite length_app. cbn [List.length]. 
    replace (List.length before + S (List.length after))%nat
      with (List.length before + 1 + List.length after)%nat by lia.
    reflexivity.
  - rewrite <- Hbefore. apply forallb_pointwise. intros p. apply returns_display_poll.
Qed.

End FormatterMore.

(** ** The progress lines *)

Section Printed.
Context {R : Requests}.

(** Without its lines, [fetch_polls_printed] is [fetch_polls]. *)
Lemma fetch_polls_printed_silent (w : World) (skip limit : Z) (base_url : string) :
  silent (fetch_polls_printed w skip limit base_url) = fetch_polls w skip limit base_url.
Proof.
  unfold fetch_polls_printed, fetch_polls, silent.
  destruct (send w (GET (base_url ++ "/polls") skip limit)) as [o w1].
  destruct o as [ | e | status [body | ] ]; try reflexivity.
  destruct (status =? 200); [ | reflexivity ].
  destruct (py_len body); reflexivity.
Qed.

(** The lines of [fetch_polls] change nothing of what it returns, and
    they are: nothing when it raises; for a success two
    lines, the first with the number of polls that is also the
    [returned_count] of the result, the second with the [skip] and [limit]
    of the call; for every failure one line. *)
Theorem fetch_polls_lines (w : World) (skip limit : Z) (base_url : string) :
  silent (fetch_polls_printed w skip limit base_url) = fetch_polls w skip limit base_url /\
  match fst (fetch_polls_printed w skip limit base_url) with
  | (out, Raised _) => out = []
  | (out, Returned r) =>
      if succeeded r
      then exists n,
             path r ["pagination"; "returned_count"] = Returned (VInt n) /\
             out = ["✅ Successfully fetched " ++ str_of_int n ++ " polls";
                    "📄 Pagination: skip=" ++ str_of_int skip
                    ++ ", limit=" ++ str_of_int limit]
      else exists line, out = [line]
  end.
Proof.
  split; [ apply fetch_polls_printed_silent | ].
  unfold fetch_polls_printed.
  destruct (send w (GET (base_url ++ "/polls") skip limit)) as [o w1].
  destruct o as [ | e | status [body | ] ]; try (cbn; eexists; reflexivity).
  destruct (status =? 200); [ | cbn; eexists; reflexivity ].
  destruct (py_len body) as [n | e]; cbn; [ | reflexivity ].
  exists n. split; reflexivity.
Qed.

Variable base_url : string.
Variable page_size : Z.
Variable max_polls : option Z.

Lemma loop_body_printed_silent (w : World) (st : loop_state) :
  snd (loop_body_printed base_url page_size max_polls w st)
  = loop_body base_url page_size max_polls w st.
Proof.
  unfold loop_body_printed, loop_body.
  destruct (current_limit page_size max_polls st) as [limit | ]; [ | reflexivity ].
  rewrite <- fetch_polls_printed_silent. unfold silent.
  destruct (fetch_polls_printed w (skip st) limit base_url) as [[out [r | e]] w1];
    cbn [fst snd]; [ | reflexivity ].
  destruct (get r "success") as [ok | e]; [ | reflexivity ].
  destruct (negb (truthy ok)); [ reflexivity | ].
  destruct (subscript r "data") as [data | e]; [ | reflexivity ].
  destruct (negb (truthy data)); [ reflexivity | ].
  destruct (py_iter data) as [items | e], (py_len data) as [n | e']; try reflexivity.
  destruct (n <? limit); reflexivity.
Qed.

Lemma fetch_all_loop_printed_silent (fuel : nat) :
  forall w st,
    option_map silent (fetch_all_loop_printed base_url page_size max_polls fuel w st)
    = fetch_all_loop base_url page_size max_polls fuel w st.
Proof.
  induction fuel as [ | fuel IH]; intros w st; [ reflexivity | ].
  cbn [fetch_all_loop_printed fetch_all_loop].
  rewrite <- loop_body_printed_silent.
  destruct (loop_body_printed base_url page_size max_polls w st)
    as [out [w1 st1 | w1 st1 | w1 r | w1 e]]; cbn [snd]; try reflexivity.
  rewrite <- IH.
  destruct (fetch_all_loop_printed base_url page_size max_polls fuel w1 st1)
    as [[m w2] | ]; reflexivity.
Qed.

(** Without its lines, [fetch_all_polls_printed] is [fetch_all_polls]:
    the same result, or exception, the same server state, and the same
    fuel. *)
Theorem fetch_all_polls_printed_silent (fuel : nat) (w : World) :
  option_map silent (fetch_all_polls_printed base_url page_size max_polls fuel w)
  = fetch_all_polls base_url page_size max_polls fuel w.
Proof.
  unfold fetch_all_polls_printed, fetch_all_polls.
  rewrite <- fetch_all_loop_printed_silent.
  destruct (fetch_all_loop_printed base_url page_size max_polls fuel w initial)
    as [[m w1] | ]; reflexivity.
Qed.



End Printed.

(** ** The exceptions of the loop

    Among the outcomes of a request that the model has (a connection
    error, another request exception, a response), these lemmas trace an
    exception of the loop to its origin. *)

Section LoopExceptions.
Context {R : Requests}.
Variable base_url : string.
Variable page_size : Z.
Variable max_polls : option Z.

(** A pass raises only what [fetch_polls] raises: the lookups and the
    iteration that follow a successful call cannot fail. *)
Lemma loop_body_raise (w w' : World) (st : loop_state) (e : exn) :
  loop_body base_url page_size max_polls w st = Raise w' e ->
  exists limit, fetch_polls w (skip st) limit base_url = (Raised e, w').
Proof.
  unfold loop_body.
  destruct (current_limit page_size max_polls st) as [limit | ]; [ | discriminate ].
  destruct (fetch_polls w (skip st) limit base_url) as [[r | e1] w1] eqn:Hf.
  2:{ intros H. injection H as <- <-. exists limit. exact Hf. }
  unfold fetch_polls in Hf.
  destruct (send w (GET (base_url ++ "/polls") (skip st) limit)) as [o w2].
  destruct o as [ | msg | status [body | ] ];
    try (injection Hf as <- _; discriminate).
  destruct (status =? 200).
  - destruct body; cbn in Hf; try discriminate Hf; injection Hf as <- _; cbn.
    + destruct (negb _); [ discriminate | ]. destruct (_ <? _); discriminate.
    + destruct l; cbn; [ discriminate | ]. destruct (_ <? _); discriminate.
    + destruct kvs as [ | [k v] kvs]; cbn; [ discriminate | ].
      destruct (_ <? _); discriminate.
  - injection Hf as <- _. discriminate.
Qed.

(** What makes [fetch_polls] raise: a 200 response whose body has no
    length. *)
Lemma fetch_polls_raise_body (w w' : World) (skip limit : Z) (e : exn) :
  fetch_polls w skip limit base_url = (Raised e, w') ->
  exists body,
    send w (GET (base_url ++ "/polls") skip limit) = (Response 200 (Some body), w') /\
    py_len body = Raised e /\ e = TypeError.
Proof.
  unfold fetch_polls.
  destruct (send w (GET (base_url ++ "/polls") skip limit)) as [o w1].
  destruct o as [ | msg | status [body | ] ]; try discriminate.
  destruct (status =? 200) eqn:E200; [ | discriminate ].
  apply Z.eqb_eq in E200. subst status.
  destruct (py_len body) as [n | e1] eqn:Hlen; [ discriminate | ].
  intros H. injection H as <- <-. exists body.
  split; [ reflexivity | split; [ exact Hlen | ] ].
  destruct body; cbn in Hlen; try discriminate Hlen; now injection Hlen as <-.
Qed.

Lemma fetch_all_loop_exceptions (fuel : nat) :
  forall w st w' e,
    fetch_all_loop base_url page_size max_polls fuel w st = Some (Raised e, w') ->
    (e = ZeroDivisionError /\ page_size = 0) \/
    (exists w1 skip limit, fetch_polls w1 skip limit base_url = (Raised e, w')).
Proof.
  induction fuel as [ | fuel IH]; intros w st w' e Hrun; [ discriminate Hrun | ].
  cbn [fetch_all_loop] in Hrun.
  destruct (loop_body base_url page_size max_polls w st)
    as [w1 st1 | w1 st1 | w1 r1 | w1 e1] eqn:Hstep.
  - exact (IH _ _ _ _ Hrun).
  - left. unfold finish in Hrun. destruct (page_size =? 0) eqn:E; [ | discriminate Hrun ].
    injection Hrun as <- _. apply Z.eqb_eq in E. auto.
  - discriminate Hrun.
  - injection Hrun as -> ->. right.
    destruct (loop_body_raise _ _ _ _ Hstep) as [limit Hf].
    exists w, (skip st), limit. exact Hf.
Qed.

(** Whatever [fetch_all_polls] returns is a dict. *)
Lemma fetch_all_polls_returns_dict (fuel : nat) (w w' : World) (r : value) :
  fetch_all_polls base_url page_size max_polls fuel w = Some (Returned r, w') ->
  is_dict r = true.
Proof.
  unfold fetch_all_polls. generalize initial as st. revert w.
  induction fuel as [ | fuel IH]; intros w st Hrun; [ discriminate Hrun | ].
  cbn [fetch_all_loop] in Hrun.
  pose proof (loop_body_cases base_url page_size max_polls w st) as H.
  destruct (loop_body base_url page_size max_polls w st)
    as [w1 st1 | w1 st1 | w1 r1 | w1 e1].
  - exact (IH _ _ Hrun).
  - unfold finish in Hrun. destruct (page_size =? 0); [ discriminate Hrun | ].
    now injection Hrun as <- _.
  - injection Hrun as <- _. destruct H as (limit & _ & Hf & _).
    destruct (fetch_polls_success_field base_url _ _ _ _ _ Hf) as (b & Hs & _).
    destruct r1; try discriminate Hs. reflexivity.
  - discriminate Hrun.
Qed.

End LoopExceptions.

(** ** The demonstration *)

Lemma forallb_firstn (A : Type) (f : A -> bool) (n : nat) (xs : list A) :
  forallb f xs = true -> forallb f (firstn n xs) = true.
Proof.
  revert n. induction xs as [ | x xs IH]; intros n Hall.
  - now rewrite firstn_nil.
  - destruct n; [ reflexivity | ].
    cbn [forallb firstn] in *. apply andb_true_iff in Hall as [Hx Hxs].
    now rewrite Hx, IH.
Qed.

Ltac io_step :=
  rewrite returns_bind;
  cbn [eval print snd get get_default subscript path slice_to assoc
       String.eqb Ascii.eqb Bool.eqb andb truthy negb].

Section MainProperties.
Context {R : Requests} {B : Builtins}.

Lemma display_polls_of_list (polls : list value) :
  display_polls_of (VList polls) = display_polls polls.
Proof.
  destruct polls as [ | poll rest]; [ reflexivity | ].
  unfold display_polls_of, display_polls. cbn [truthy negb py_len py_iter].
  cbv [bind eval print]. destruct (for_each display_poll (poll :: rest)). reflexivity.
Qed.

Lemma returns_display_polls_of_list (polls : list value) :
  returns (display_polls_of (VList polls)) = forallb renderable polls.
Proof. rewrite display_polls_of_list. apply returns_display_polls. Qed.

Lemma completes_say (A : Type) (m : io A) (w : World) :
  returns m = true -> exists out a, say m w = Some ((out, Returned a), w).
Proof.
  unfold returns, say. destruct m as [out [a | e]]; cbn; [ | discriminate ].
  intros _. exists out, a. reflexivity.
Qed.

Lemma completes_and_then (A C : Type) (m : prog A) (k : A -> prog C) (w : World) :
  (exists out a w', m w = Some ((out, Returned a), w') /\ completes (k a) w') ->
  completes (and_then m k) w.
Proof.
  intros (out & a & w' & Hm & out' & c & w'' & Hk).
  unfold completes, and_then. rewrite Hm, Hk. unfold after. cbn. do 3 eexists. reflexivity.
Qed.

Lemma completes_then_say (A C : Type) (m : io A) (k : A -> prog C) (w : World) :
  returns m = true ->
  (forall a, completes (k a) w) ->
  completes (and_then (say m) k) w.
Proof.
  intros Hm Hk. apply completes_and_then.
  destruct (completes_say A m w Hm) as (out & a & Hsay).
  exists out, a, w. split; [ exact Hsay | apply Hk ].
Qed.

(** For a dict without success, [show_result] and [show_summary] print
    the error and return. *)
Lemma returns_show_failure (kvs : list (string * value)) :
  succeeded (VDict kvs) = false ->
  returns (show_result (VDict kvs)) = true /\ returns (show_summary (VDict kvs)) = true.
Proof.
  unfold succeeded, show_result, show_summary. cbn [get get_default].
  destruct (assoc "success" kvs) as [ok | ], (assoc "error" kvs) as [error | ];
    cbn [truthy]; intros Hok; split;
    rewrite returns_bind; cbn [eval snd truthy]; rewrite ?Hok; cbv iota;
    rewrite returns_bind; reflexivity.
Qed.

Hypothesis schema : serves_polls R.

(** Against a server within the schema, a single fetch returns, and its
    result can be shown. *)
Lemma fetch_then_show (w : World) (skip limit : Z) (base_url : string) :
  exists out r w',
    fetch_polls_printed w skip limit base_url = ((out, Returned r), w') /\
    returns (show_result r) = true.
Proof.
  unfold fetch_polls_printed.
  destruct (send w (GET (base_url ++ "/polls") skip limit)) as [o w1] eqn:Hsend.
  destruct o as [ | msg | status [body | ] ].
  1,2,4: do 3 eexists; (split; [ reflexivity | ]); apply returns_show_failure; reflexivity.
  destruct (status =? 200) eqn:E200.
  - apply Z.eqb_eq in E200. subst status.
    destruct (schema _ _ _ _ Hsend) as (polls & -> & Hpolls).
    do 3 eexists. split; [ reflexivity | ].
    unfold show_result. rewrite !returns_bind. cbn [eval snd get get_default assoc String.eqb
      Ascii.eqb Bool.eqb truthy]. rewrite !returns_bind.
    cbn -[display_polls_of]. rewrite returns_display_polls_of_list. exact Hpolls.
  - do 3 eexists. split; [ reflexivity | ]. apply returns_show_failure. reflexivity.
Qed.

(** Against a server within the schema, the bounded aggregation returns,
    and its result can be summarised. *)
Lemma aggregate_then_summarise (w : World) (base_url : string) (page_size M : Z)
    (fuel : nat) :
  page_size <> 0 ->
  (Z.to_nat M < fuel)%nat ->
  exists out r w',
    fetch_all_polls_printed base_url page_size (Some M) fuel w = Some ((out, Returned r), w') /\
    returns (show_summary r) = true.
Proof.
  intros Hp Hfuel.
  destruct (loop_ends_below_max base_url page_size M fuel w initial)
    as [[res w'] Hrun].
  { cbn [total_fetched initial]. now rewrite Z.sub_0_r. }
  change (fetch_all_loop base_url page_size (Some M) fuel w initial)
    with (fetch_all_polls base_url page_size (Some M) fuel w) in Hrun.
  pose proof (fetch_all_loop_printed_silent base_url page_size (Some M) fuel w initial)
    as Hsilent.
  unfold fetch_all_polls in Hrun. rewrite Hrun in Hsilent.
  unfold fetch_all_polls_printed.
  destruct (fetch_all_loop_printed base_url page_size (Some M) fuel w initial)
    as [[[out res1] w1] | ]; [ | discriminate Hsilent ].
  cbn in Hsilent. injection Hsilent as -> ->.
  destruct res as [r | e].
  2:{ exfalso.
      destruct (fetch_all_loop_exceptions base_url page_size (Some M) fuel _ _ _ _ Hrun)
        as [[_ Hz] | (w2 & skip & limit & Hf)]; [ contradiction | ].
      destruct (fetch_polls_raise_body base_url _ _ _ _ _ Hf) as (body & Hsend & Hlen & _).
      destruct (schema _ _ _ _ Hsend) as (polls & -> & _). discriminate Hlen. }
  change (fetch_all_loop base_url page_size (Some M) fuel w initial)
    with (fetch_all_polls base_url page_size (Some M) fuel w) in Hrun.
  eexists _, r, w'. split; [ reflexivity | ].
  destruct (succeeded r) eqn:Hok.
  - destruct (loop_invariant base_url page_size (Some M)
                (fun st => forallb renderable (all_polls st) = true)) with
        (fuel := fuel) (w := w) (st := initial) (r := r) (w' := w')
      as (st & Hst & Hfin); trivial.
    + intros w2 st2 w3 st3 Hst2 Hstep.
      pose proof (loop_body_cases base_url page_size (Some M) w2 st2) as H.
      assert (Hpage : forall limit r1 data items,
                 fetch_polls w2 (skip st2) limit base_url = (Returned r1, w3) ->
                 succeeded r1 = true ->
                 subscript r1 "data" = Returned data ->
                 py_iter data = Returned items ->
                 forallb renderable (all_polls (advance st2 items)) = true).
      { intros limit r1 data items Hf Hok1 Hd Hi.
        destruct (fetch_polls_success_body base_url _ _ _ _ _ Hf Hok1) as (body & Hsend & Hd').
        rewrite Hd in Hd'. injection Hd' as <-.
        destruct (schema _ _ _ _ Hsend) as (polls & -> & Hpolls).
        cbn in Hi. injection Hi as <-. cbn [all_polls advance].
        rewrite forallb_app, Hst2, Hpolls. reflexivity. }
      destruct Hstep as [Hstep | Hstep]; rewrite Hstep in H.
      * destruct H as (limit & r1 & data & items & _ & Hf & Hok1 & Hd & Hi & -> & _).
        eapply Hpage; eassumption.
      * destruct H as [(_ & _ & ->) | (limit & r1 & data & _ & Hf & Hok1 & Hd & H)];
          [ exact Hst2 | ].
        destruct H as [(_ & ->) | (items & Hi & -> & _)]; [ exact Hst2 | ].
        eapply Hpage; eassumption.
    + unfold finish in Hfin.
      replace (page_size =? 0) with false in Hfin by (symmetry; apply Z.eqb_neq; exact Hp).
      injection Hfin as <-. unfold show_summary.
      remember (all_polls st) as polls eqn:Hall. clear Hall.
      destruct polls as [ | poll rest]; repeat io_step; [ reflexivity | ].
      rewrite returns_display_polls_of_list. apply forallb_firstn. exact Hst.
  - pose proof (fetch_all_polls_returns_dict base_url page_size (Some M) fuel w w' r Hrun) as Hd.
    destruct r; try discriminate Hd. apply returns_show_failure. exact Hok.
Qed.

(** Against a server within the schema, [main] runs its three examples to
    the end without an exception, whatever else the server does (refuse
    connections, answer with errors, send short or overlong pages); 21
    passes of the loop are enough for the third example. *)
Theorem main_returns_on_schema (fuel : nat) (w : World) :
  (20 < fuel)%nat ->
  completes (main fuel) w.
Proof.
  intros Hfuel. unfold main.
  apply completes_then_say; [ reflexivity | intros _ ].
  apply completes_then_say; [ reflexivity | intros _ ].
  apply completes_and_then.
  destruct (fetch_then_show w 0 5 default_base_url) as (out1 & r1 & w1 & Hf1 & Hs1).
  exists out1, r1, w1. split; [ now rewrite Hf1 | ].
  apply completes_then_say; [ exact Hs1 | intros _ ].
  apply completes_then_say; [ reflexivity | intros _ ].
  apply completes_then_say; [ reflexivity | intros _ ].
  apply completes_and_then.
  destruct (fetch_then_show w1 5 5 default_base_url) as (out2 & r2 & w2 & Hf2 & Hs2).
  exists out2, r2, w2. split; [ now rewrite Hf2 | ].
  apply completes_then_say; [ exact Hs2 | intros _ ].
  apply completes_then_say; [ reflexivity | intros _ ].
  apply completes_then_say; [ reflexivity | intros _ ].
  apply completes_and_then.
  destruct (aggregate_then_summarise w2 default_base_url 10 20 fuel ltac:(lia) ltac:(lia))
    as (out3 & r3 & w3 & Hf3 & Hs3).
  exists out3, r3, w3. split; [ exact Hf3 | ].
  destruct (completes_say unit (show_summary r3) w3 Hs3) as (out & a & Hsay).
  exists out, a, w3. exact Hsay.
Qed.

End MainProperties.

Lemma forallb_skipn (A : Type) (f : A -> bool) (n : nat) (xs : list A) :
  forallb f xs = true -> forallb f (skipn n xs) = true.
Proof.
  revert n. induction xs as [ | x xs IH]; intros n Hall.
  - now rewrite skipn_nil.
  - destruct n; [ exact Hall | ].
    cbn [forallb skipn] in *. apply andb_true_iff in Hall as [_ Hxs]. now apply IH.
Qed.

Lemma poll_source_serves_polls (records : list value) :
  forallb renderable records = true -> serves_polls (poll_source records).
Proof.
  intros Hall w w' request body Hsend. cbn in Hsend.
  destruct request as [url skip limit | url username password ]; [ | discriminate Hsend ].
  injection Hsend as <- _. eexists. split; [ reflexivity | ].
  unfold page. apply forallb_firstn, forallb_skipn, Hall.
Qed.

(** ** The number of requests under [max_polls] *)

Lemma ceil_div_mono (a a' b : Z) : 1 <= b -> a <= a' -> ceil_div a b <= ceil_div a' b.
Proof.
  intros Hb Ha. unfold ceil_div.
  pose proof (Z.div_le_mono (- a') (- a) b ltac:(lia) ltac:(lia)). lia.
Qed.

Lemma ceil_div_step (a b : Z) : 1 <= b -> ceil_div (a - b) b = ceil_div a b - 1.
Proof.
  intros Hb. unfold ceil_div.
  replace (- (a - b)) with (- a + 1 * b) by lia.
  rewrite Z.div_add by lia. lia.
Qed.

Lemma ceil_div_pos (a b : Z) : 1 <= b -> 1 <= a -> 1 <= ceil_div a b.
Proof.
  intros Hb Ha. unfold ceil_div.
  pose proof (Z.div_lt_upper_bound (- a) b 0 ltac:(lia) ltac:(lia)). lia.
Qed.

Lemma ceil_div_nonneg (a b : Z) : 1 <= b -> 0 <= a -> 0 <= ceil_div a b.
Proof.
  intros Hb Ha. unfold ceil_div.
  pose proof (Z.div_le_upper_bound (- a) b 0 ltac:(lia) ltac:(lia)). lia.
Qed.

Section RequestBudget.
Variable answer : nat -> http_request -> http_outcome.
Variable base_url : string.
Variable page_size M : Z.
Hypothesis page_size_pos : 1 <= page_size.

Lemma server_fetch_world (n : nat) (skip limit : Z) :
  snd (@fetch_polls (server answer) n skip limit base_url) = S n.
Proof.
  unfold fetch_polls. cbn [send server].
  destruct (answer n (GET (base_url ++ "/polls") skip limit)) as [ | e | status [body | ] ];
    try reflexivity.
  destruct (status =? 200); [ destruct (py_len body) | ]; reflexivity.
Qed.

Lemma server_loop_requests (fuel : nat) :
  forall (n : nat) st x (n' : nat),
    @fetch_all_loop (server answer) base_url page_size (Some M) fuel n st = Some (x, n') ->
    (n <= n')%nat /\
    Z.of_nat (n' - n) <= ceil_div (Z.max 0 (M - total_fetched st)) page_size.
Proof.
  induction fuel as [ | fuel IH]; intros n st x n' Hrun; [ discriminate Hrun | ].
  cbn [fetch_all_loop] in Hrun.
  pose proof (@loop_body_cases (server answer) base_url page_size (Some M) n st) as H.
  pose proof (@loop_body_raise (server answer) base_url page_size (Some M) n) as Hraise.
  assert (Hone : forall limit,
             current_limit page_size (Some M) st = Some limit ->
             (n <= S n)%nat /\
             Z.of_nat (S n - n) <= ceil_div (Z.max 0 (M - total_fetched st)) page_size).
  { intros limit Hlim. unfold current_limit in Hlim.
    destruct (M - total_fetched st <=? 0) eqn:Hrem; [ discriminate Hlim | ].
    apply Z.leb_gt in Hrem. split; [ lia | ].
    pose proof (ceil_div_pos (Z.max 0 (M - total_fetched st)) page_size
                  page_size_pos ltac:(lia)).
    lia. }
  assert (Hworld : forall limit r (w1 : nat),
             @fetch_polls (server answer) n (skip st) limit base_url = (r, w1) -> w1 = S n).
  { intros limit r w1 Hf. rewrite <- (server_fetch_world n (skip st) limit), Hf. reflexivity. }
  destruct (@loop_body (server answer) base_url page_size (Some M) n st)
    as [w1 st1 | w1 st1 | w1 r1 | w1 e1] eqn:Hstep.
  - destruct H as (limit & r & data & items & Hlim & Hf & _ & _ & _ & -> & Hne & Hle).
    apply Hworld in Hf. subst w1.
    destruct (IH _ _ _ _ Hrun) as [Hn Hreq]. split; [ lia | ].
    cbn [total_fetched advance] in Hreq.
    unfold current_limit in Hlim.
    destruct (M - total_fetched st <=? 0) eqn:Hrem; [ discriminate Hlim | ].
    apply Z.leb_gt in Hrem. injection Hlim as <-.
    assert (Hceil : ceil_div (Z.max 0 (M - (total_fetched st
                                            + Z.of_nat (List.length items)))) page_size
                    <= ceil_div (Z.max 0 (M - total_fetched st)) page_size - 1).
    { destruct (Z.le_gt_cases page_size (M - total_fetched st)) as [Hbig | Hsmall].
      - rewrite <- ceil_div_step by exact page_size_pos.
        apply ceil_div_mono; [ exact page_size_pos | lia ].
      - replace (Z.max 0 (M - (total_fetched st + Z.of_nat (List.length items))))
          with 0 by lia.
        pose proof (ceil_div_pos (Z.max 0 (M - total_fetched st)) page_size
                      page_size_pos ltac:(lia)).
        unfold ceil_div at 1. cbn. lia. }
    lia.
  - injection Hrun as _ <-.
    destruct H as [(_ & -> & _) | (limit & r & data & Hlim & Hf & _)].
    + split; [ lia | ]. rewrite Nat.sub_diag.
      apply ceil_div_nonneg; [ exact page_size_pos | lia ].
    + apply Hworld in Hf. subst w1. exact (Hone limit Hlim).
  - injection Hrun as _ <-. destruct H as (limit & Hlim & Hf & _).
    apply Hworld in Hf. subst w1. exact (Hone limit Hlim).
  - injection Hrun as _ <-. destruct (Hraise _ _ _ Hstep) as [limit Hf].
    assert (Hlim : exists limit', current_limit page_size (Some M) st = Some limit').
    { unfold loop_body in Hstep.
      destruct (current_limit page_size (Some M) st) as [limit' | ];
        [ eexists; reflexivity | discriminate Hstep ]. }
    destruct Hlim as [limit' Hlim].
    apply Hworld in Hf. subst w1. exact (Hone limit' Hlim).
Qed.

(** With [max_polls = M] and a page size of at least 1, a call of
    [fetch_all_polls] sends at most [ceil(M / page_size)] requests, against
    every server and however the call ends. *)
Theorem max_polls_bounds_the_requests (fuel n n' : nat) (x : outcome value) :
  0 <= M ->
  @fetch_all_polls (server answer) base_url page_size (Some M) fuel n = Some (x, n') ->
  (n <= n')%nat /\ Z.of_nat (n' - n) <= ceil_div M page_size.
Proof.
  intros HM Hrun. destruct (server_loop_requests fuel n initial x n' Hrun) as [Hn Hreq].
  split; [ exact Hn | ]. cbn [total_fetched initial] in Hreq.
  replace (Z.max 0 (M - 0)) with M in Hreq by lia. exact Hreq.
Qed.

End RequestBudget.

(** ** The demonstration of the registration *)

Section RegisterMain.
Context {B : Builtins} {J : Json}.
Variable answer : list http_request -> http_request -> http_outcome.

(** [register_user] returns against a server whose 200 responses carry
    objects, and the server has then seen the one request. *)
Lemma register_user_recorded (seen : list http_request) (username password : string) :
  (forall seen request body,
      answer seen request = Response 200 (Some body) -> is_dict body = true) ->
  exists out r,
    @register_user (recording answer) B seen username password default_base_url
    = ((out, Returned r),
       (seen ++ [POST (default_base_url ++ "/register") username password])%list).
Proof.
  intros Hobj. unfold register_user. cbn [send recording].
  destruct (answer seen (POST (default_base_url ++ "/register") username password))
    as [ | e | status [body | ] ] eqn:Hans; try (do 2 eexists; reflexivity).
  destruct (status =? 200) eqn:E200.
  - apply Z.eqb_eq in E200. subst status.
    pose proof (Hobj _ _ _ Hans) as Hd. destruct body; try discriminate Hd.
    cbn. destruct (assoc "id" kvs); do 2 eexists; reflexivity.
  - destruct (status =? 400); do 2 eexists; reflexivity.
Qed.

(** Against every server whose 200 responses carry objects, the [main] of
    register_user.py returns without an exception, and the server has
    seen exactly three requests: the registration of john_doe, the same
    again, and the registration of jane_smith. *)
Theorem register_user_main_requests (seen : list http_request) :
  (forall seen request body,
      answer seen request = Response 200 (Some body) -> is_dict body = true) ->
  exists out,
    @register_user_main (recording answer) B J seen
    = Some ((out, Returned tt),
            (seen ++ [POST "http://localhost:8000/register" "john_doe" "secure_password123";
                      POST "http://localhost:8000/register" "john_doe" "secure_password123";
                      POST "http://localhost:8000/register" "jane_smith"
                        "another_password456"])%list).
Proof.
  intros Hobj. unfold register_user_main, and_then, say.
  destruct (register_user_recorded seen "john_doe" "secure_password123" Hobj)
    as (out1 & r1 & H1).
  rewrite H1. set (seen1 := (seen ++ _)%list) in *.
  destruct (register_user_recorded seen1 "john_doe" "secure_password123" Hobj)
    as (out2 & r2 & H2).
  rewrite H2. set (seen2 := (seen1 ++ _)%list) in *.
  destruct (register_user_recorded seen2 "jane_smith" "another_password456" Hobj)
    as (out3 & r3 & H3).
  rewrite H3. unfold after, print. cbn [fst snd].
  eexists. unfold seen2, seen1. rewrite <- !app_assoc. reflexivity.
Qed.

End RegisterMain.

(** ** Witnesses of the further properties *)

Lemma fetch_polls_success_iff_witness :
  exists r,
    @fetch_polls (poll_source [VInt 11; VInt 12]) 0%nat 0 5 "http://localhost:8000"
    = (Returned r, 1%nat) /\ succeeded r = true.
Proof.
  apply (proj1 (@fetch_polls_success_iff (poll_source [VInt 11; VInt 12]) 0%nat 1%nat 0 5
                  "http://localhost:8000" _ eq_refl)).
  exists (VList [VInt 11; VInt 12]), 2. split; reflexivity.
Defined.

Lemma fetch_polls_unsized_body_raises_witness :
  @fetch_polls (server (fun _ _ => Response 200 (Some VNone))) 0%nat 0 5
    "http://localhost:8000" = (Raised TypeError, 1%nat).
Proof.
  exact (@fetch_polls_unsized_body_raises (server (fun _ _ => Response 200 (Some VNone)))
           0%nat 1%nat 0 5 "http://localhost:8000" VNone eq_refl I).
Defined.

Lemma fetch_polls_result_shape_witness :
  subscript (VDict [("success", VBool false); ("status_code", VInt 500);
                    ("error", VStr "Internal Server Error")]) "data" = Raised KeyError.
Proof.
  destruct (@fetch_polls_result_shape
              (server (fun _ _ => Response 500 (Some (VStr "Internal Server Error"))))
              0%nat 1%nat 0 5 "http://localhost:8000" _ eq_refl)
    as [(Hs & _) | (_ & _ & Hdata & _)]; [ discriminate Hs | exact Hdata ].
Defined.

Lemma register_user_prints_its_error_witness :
  exists error_msg,
    @register_user (server (fun _ _ => RequestException "timed out")) sample_builtins
      0%nat "john_doe" "secure_password123" "http://localhost:8000"
    = (([error_msg], Returned (VDict [("success", VBool false); ("error", VStr error_msg)])),
       1%nat) /\
    error_msg = "❌ Request failed: timed out".
Proof.
  exact (@register_user_prints_its_error (server (fun _ _ => RequestException "timed out"))
           sample_builtins 0%nat 1%nat "john_doe" "secure_password123"
           "http://localhost:8000" _ eq_refl I).
Defined.

Lemma register_user_success_lines_witness :
  @register_user (server (fun _ _ => Response 200 (Some (VDict [("username", VStr "a")]))))
    sample_builtins 0%nat "a" "test_password" "http://localhost:8000"
  = ((["✅ User 'a' registered successfully!"; "User ID: None"],
      Returned (VDict [("success", VBool true); ("status_code", VInt 200);
                       ("data", VDict [("username", VStr "a")])])), 1%nat).
Proof.
  exact (@register_user_success_lines
           (server (fun _ _ => Response 200 (Some (VDict [("username", VStr "a")]))))
           sample_builtins 0%nat 1%nat "a" "test_password" "http://localhost:8000"
           [("username", VStr "a")] eq_refl).
Defined.

Lemma exception_is_propagated_witness :
  exists fuel0, forall fuel, (fuel0 <= fuel)%nat ->
    @fetch_all_polls (scripted [[VInt 11; VInt 12]] (Response 200 (Some (VInt 0))))
      "http://localhost:8000" 2 None fuel 0%nat
    = Some (Raised TypeError, 2%nat).
Proof.
  refine (@exception_is_propagated
            (scripted [[VInt 11; VInt 12]] (Response 200 (Some (VInt 0))))
            "http://localhost:8000" 2 None 0%nat 1%nat 2%nat
            (advance initial [VInt 11; VInt 12]) 2 TypeError _ eq_refl eq_refl).
  apply (@visits_next (scripted [[VInt 11; VInt 12]] (Response 200 (Some (VInt 0))))
           "http://localhost:8000" 2 None 0%nat initial 0%nat initial).
  - apply visits_here.
  - reflexivity.
Defined.


Lemma nonpositive_max_polls_makes_no_request_witness :
  @fetch_all_polls (poll_source [VInt 11; VInt 12]) "http://localhost:8000" 10 (Some 0)
    1%nat 0%nat
  = Some (Returned (VDict [("success", VBool true); ("data", VList []);
                           ("total_count", VInt 0);
                           ("pagination_info",
                             VDict [("page_size", VInt 10); ("total_requests", VInt 0)])]),
          0%nat).
Proof.
  apply (@nonpositive_max_polls_makes_no_request (poll_source [VInt 11; VInt 12])
           "http://localhost:8000" 10 0 0%nat 0%nat); lia.
Defined.

Lemma total_count_is_data_length_witness :
  exists items,
    subscript (VDict [("success", VBool true); ("data", VList [VInt 11; VInt 12]);
                      ("total_count", VInt 2);
                      ("pagination_info",
                        VDict [("page_size", VInt 5); ("total_requests", VInt 1)])]) "data"
    = Returned (VList items) /\
    subscript (VDict [("success", VBool true); ("data", VList [VInt 11; VInt 12]);
                      ("total_count", VInt 2);
                      ("pagination_info",
                        VDict [("page_size", VInt 5); ("total_requests", VInt 1)])])
      "total_count"
    = Returned (VInt (Z.of_nat (List.length items))).
Proof.
  exact (@total_count_is_data_length (poll_source [VInt 11; VInt 12])
           "http://localhost:8000" 5 None 2%nat 0%nat 1%nat _ eq_refl eq_refl).
Defined.

Lemma honest_server_respects_max_polls_witness :
  exists total,
    subscript (VDict [("success", VBool true); ("data", VList [VInt 11; VInt 12]);
                      ("total_count", VInt 2);
                      ("pagination_info",
                        VDict [("page_size", VInt 5); ("total_requests", VInt 1)])])
      "total_count" = Returned (VInt total) /\
    0 <= total <= 2.
Proof.
  refine (@honest_server_respects_max_polls (poll_source [VInt 11; VInt 12; VInt 13])
            "http://localhost:8000" 5 2 3%nat 0%nat 1%nat _
            (poll_source_honours_limit [VInt 11; VInt 12; VInt 13]) _ eq_refl eq_refl).
  lia.
Defined.

Lemma max_polls_bounds_the_loop_witness :
  exists x,
    @fetch_all_polls endless_source "http://localhost:8000" 10 (Some 20) 21%nat 0%nat
    = Some x.
Proof.
  apply (@max_polls_bounds_the_loop endless_source "http://localhost:8000" 10 20 21%nat 0%nat).
  cbn. lia.
Defined.

Lemma full_pages_never_end_witness :
  @fetch_all_polls endless_source "http://localhost:8000" 10 None 50%nat 0%nat = None.
Proof.
  exact (@full_pages_never_end endless_source "http://localhost:8000" 10 50%nat 0%nat
           endless_source_always_full).
Defined.

Lemma short_first_page_ends_the_loop_witness :
  exists total_requests,
    @fetch_all_polls (scripted [[VInt 11; VInt 12]; [VInt 13]] ConnectionError)
      "http://localhost:8000" 5 None 1%nat 0%nat
    = Some (Returned (VDict [("success", VBool true);
                             ("data", VList [VInt 11; VInt 12]);
                             ("total_count", VInt 2);
                             ("pagination_info",
                               VDict [("page_size", VInt 5);
                                      ("total_requests", VInt total_requests)])]),
            1%nat).
Proof.
  refine (@short_first_page_ends_the_loop
            (scripted [[VInt 11; VInt 12]; [VInt 13]] ConnectionError)
            "http://localhost:8000" 5 None 0%nat 0%nat 1%nat 5 [VInt 11; VInt 12]
            eq_refl eq_refl _ _ _).
  - discriminate.
  - cbn. lia.
  - lia.
Defined.

Lemma source_request_count_witness :
  exists made,
    option_map snd (@fetch_all_polls (poll_source [VInt 11; VInt 12; VInt 13; VInt 14])
                      "http://localhost:8000" 2 None 5%nat 0%nat)
    = Some (0 + made)%nat /\
    Z.of_nat made = 4 / 2 + 1 /\
    Z.of_nat made = ceil_div 4 2 + (if 4 mod 2 =? 0 then 1 else 0).
Proof.
  refine (@source_request_count [VInt 11; VInt 12; VInt 13; VInt 14]
            "http://localhost:8000" 2 _ 5%nat 0%nat _).
  - lia.
  - cbn. lia.
Defined.

Lemma options_are_numbered_from_one_witness :
  nth_error (fst (@display_poll sample_builtins
                    (VDict [("options", VList [VDict [("id", VInt 4); ("text", VStr "9:00 AM")];
                                               VDict [("id", VInt 5)]])]))) 6
  = Some "   2. N/A (ID: 5)".
Proof.
  exact (proj1 (proj2 (@options_are_numbered_from_one sample_builtins
                  [("options", VList [VDict [("id", VInt 4); ("text", VStr "9:00 AM")];
                                      VDict [("id", VInt 5)]])]
                  [VDict [("id", VInt 4); ("text", VStr "9:00 AM")]; VDict [("id", VInt 5)]]
                  eq_refl eq_refl ltac:(discriminate)))
           1%nat [("id", VInt 5)] eq_refl).
Defined.

Lemma parsed_dates_are_reformatted_witness :
  nth_error (fst (@display_poll sample_builtins
                    (VDict [("created_at", VStr "2024-01-15T10:30:00Z")]))) 3
  = Some "📅 Created: 2024-01-15 10:30:00".
Proof.
  exact (proj2 (@parsed_dates_are_reformatted sample_builtins
                  [("created_at", VStr "2024-01-15T10:30:00Z")]
                  "2024-01-15T10:30:00Z" "2024-01-15 10:30:00" eq_refl eq_refl)).
Defined.

Lemma display_polls_stops_at_first_bad_record_witness :
  exists e,
    @display_polls sample_builtins [VDict []; VInt 7; VDict []]
    = (((nl ++ "📊 Displaying " ++ str_of_int (Z.of_nat (1 + 1 + 1)) ++ " polls:")%string
        :: str_mul "=" 60
        :: List.concat (map (fun poll => fst (@display_poll sample_builtins poll)) [VDict []])
           ++ fst (@display_poll sample_builtins (VInt 7)))%list,
       Raised e).
Proof.
  exact (@display_polls_stops_at_first_bad_record sample_builtins
           [VDict []] [VDict []] (VInt 7) eq_refl eq_refl).
Defined.


Lemma main_returns_on_schema_witness :
  @completes (poll_source [VDict [("id", VInt 1)]; VDict [("id", VInt 2)]]) unit
    (@main (poll_source [VDict [("id", VInt 1)]; VDict [("id", VInt 2)]]) sample_builtins
       21%nat) 0%nat.
Proof.
  apply (@main_returns_on_schema
           (poll_source [VDict [("id", VInt 1)]; VDict [("id", VInt 2)]]) sample_builtins
           (poll_source_serves_polls [VDict [("id", VInt 1)]; VDict [("id", VInt 2)]] eq_refl)
           21%nat 0%nat).
  lia.
Defined.

Lemma max_polls_bounds_the_requests_witness :
  (0 <= 2)%nat /\ Z.of_nat (2 - 0) <= ceil_div 20 10.
Proof.
  refine (@max_polls_bounds_the_requests
            (fun _ request =>
               match request with
               | GET _ _ limit =>
                   Response 200 (Some (VList (repeat (VDict []) (Z.to_nat (Z.max limit 1)))))
               | POST _ _ _ => Response 404 (Some (VDict [("detail", VStr "Not Found")]))
               end)
            "http://localhost:8000" 10 20 _ 3%nat 0%nat 2%nat _ _ eq_refl); lia.
Defined.

Lemma register_user_main_requests_witness :
  exists out,
    @register_user_main
      (recording (fun seen _ =>
                    match seen with
                    | [] => Response 200 (Some (VDict [("id", VInt 1)]))
                    | _ => Response 400 (Some (VStr "Username already registered"))
                    end))
      sample_builtins sample_json []
    = Some ((out, Returned tt),
            ([] ++ [POST "http://localhost:8000/register" "john_doe" "secure_password123";
                    POST "http://localhost:8000/register" "john_doe" "secure_password123";
                    POST "http://localhost:8000/register" "jane_smith"
                      "another_password456"])%list).
Proof.
  apply (@register_user_main_requests sample_builtins sample_json
           (fun seen _ =>
              match seen with
              | [] => Response 200 (Some (VDict [("id", VInt 1)]))
              | _ => Response 400 (Some (VStr "Username already registered"))
              end) []).
  intros seen request body Hans.
  destruct seen; [ injection Hans as <-; reflexivity | discriminate Hans ].
Defined.
